(** * The Fuchsia binding of V8's platform layer

    A shallow embedding of [src/base/platform/platform-fuchsia.cc]: the
    translation of access levels and alignments into Zircon mapping options,
    the placement protocol shared by committed allocations and address-space
    reservations, the root-level [OS] entry points, the
    [AddressSpaceReservation] methods and [OS::GetUserTime].

    Integers are modelled as [Z] with the wrap-around of their C++ type
    written out: [zx_vm_option_t] is [uint32_t], [size_t], [uintptr_t] and
    [zx_vaddr_t] are 64-bit (Fuchsia has 64-bit targets only), [void*] is the
    address it holds and [nullptr] is [0].  Zircon system calls are events of
    a small interaction monad; a kernel is any deterministic handler of those
    events, and running a program against a kernel records every call
    together with the kernel's reply. *)

From Stdlib Require Import ZArith List String Bool Lia.
Import ListNotations.
Local Open Scope Z_scope.

(** ** What the file takes from its headers

    None of the constants below is defined in the file: they come from
    [zircon/types.h], [zircon/errors.h] and friends, from the build
    configuration ([DEBUG] turns [DCHECK]s on) and from
    [platform-posix.cc] (the two page sizes).  They are parameters of the
    whole development. *)

Class Platform : Type := {
  ZX_OK : Z;
  ZX_VM_PERM_READ : Z;
  ZX_VM_PERM_WRITE : Z;
  ZX_VM_PERM_EXECUTE : Z;
  ZX_VM_SPECIFIC : Z;
  ZX_VM_CAN_MAP_READ : Z;
  ZX_VM_CAN_MAP_WRITE : Z;
  ZX_VM_CAN_MAP_EXECUTE : Z;
  ZX_VM_CAN_MAP_SPECIFIC : Z;
  ZX_VM_ALIGN_BASE : Z;
  ZX_PROP_NAME : Z;
  ZX_VMO_OP_DECOMMIT : Z;
  ZX_INFO_THREAD_STATS : Z;
  (** the handle [zx::vmar::root_self()] refers to *)
  root_self : Z;
  (** the handle [zx::thread::self()] refers to *)
  thread_self : Z;
  (** [DCHECK]s are compiled in *)
  DEBUG : bool;
  AllocatePageSize : Z;
  CommitPageSize : Z
}.

(** One platform for the concrete runs below: the option bits and
    [ZX_VM_ALIGN_BASE] of [zircon/types.h], [DCHECK]s compiled out, 4 KiB
    pages; the two handles are arbitrary. *)
Definition zircon_release : Platform := {|
  ZX_OK := 0;
  ZX_VM_PERM_READ := 1;
  ZX_VM_PERM_WRITE := 2;
  ZX_VM_PERM_EXECUTE := 4;
  ZX_VM_SPECIFIC := 16;
  ZX_VM_CAN_MAP_READ := 128;
  ZX_VM_CAN_MAP_WRITE := 256;
  ZX_VM_CAN_MAP_EXECUTE := 512;
  ZX_VM_CAN_MAP_SPECIFIC := 64;
  ZX_VM_ALIGN_BASE := 24;
  ZX_PROP_NAME := 3;
  ZX_VMO_OP_DECOMMIT := 2;
  ZX_INFO_THREAD_STATS := 15;
  root_self := 1;
  thread_self := 2;
  DEBUG := false;
  AllocatePageSize := 4096;
  CommitPageSize := 4096
|}.

(** The same platform with [DCHECK]s compiled in. *)
Definition zircon_debug : Platform := {|
  ZX_OK := 0;
  ZX_VM_PERM_READ := 1;
  ZX_VM_PERM_WRITE := 2;
  ZX_VM_PERM_EXECUTE := 4;
  ZX_VM_SPECIFIC := 16;
  ZX_VM_CAN_MAP_READ := 128;
  ZX_VM_CAN_MAP_WRITE := 256;
  ZX_VM_CAN_MAP_EXECUTE := 512;
  ZX_VM_CAN_MAP_SPECIFIC := 64;
  ZX_VM_ALIGN_BASE := 24;
  ZX_PROP_NAME := 3;
  ZX_VMO_OP_DECOMMIT := 2;
  ZX_INFO_THREAD_STATS := 15;
  root_self := 1;
  thread_self := 2;
  DEBUG := true;
  AllocatePageSize := 4096;
  CommitPageSize := 4096
|}.

(** ** Machine integers *)

Definition wrap32 (x : Z) : Z := x mod 2 ^ 32.
Definition wrap64 (x : Z) : Z := x mod 2 ^ 64.

(** [~x] on a [uint32_t]. *)
Definition not32 (x : Z) : Z := wrap32 (Z.lnot x).

Definition nullptr : Z := 0.

(** ** Enumerations *)

(** [OS::MemoryPermission] (declared in [platform.h]). *)
Inductive MemoryPermission : Type :=
| kNoAccess
| kRead
| kReadWrite
| kReadWriteExecute
| kReadExecute
| kNoAccessWillJitLater.

Definition all_permissions : list MemoryPermission :=
  [kNoAccess; kRead; kReadWrite; kReadWriteExecute; kReadExecute;
   kNoAccessWillJitLater].

Inductive PlacementMode : Type :=
| kUseHint
| kAnywhere
| kFixed.

Definition PlacementMode_eqb (a b : PlacementMode) : bool :=
  match a, b with
  | kUseHint, kUseHint | kAnywhere, kAnywhere | kFixed, kFixed => true
  | _, _ => false
  end.

(** ** The two translators *)

Section Translators.
Context {P : Platform}.

Definition GetProtectionFromMemoryPermission (access : MemoryPermission) : Z :=
  match access with
  | kNoAccess
  | kNoAccessWillJitLater => 0
  | kRead => ZX_VM_PERM_READ
  | kReadWrite => Z.lor ZX_VM_PERM_READ ZX_VM_PERM_WRITE
  | kReadWriteExecute =>
      Z.lor (Z.lor ZX_VM_PERM_READ ZX_VM_PERM_WRITE) ZX_VM_PERM_EXECUTE
  | kReadExecute => Z.lor ZX_VM_PERM_READ ZX_VM_PERM_EXECUTE
  end.

(** The values [shift] takes in [for (int shift = 10; shift <= 32; shift++)]. *)
Definition alignment_shifts : list Z := map Z.of_nat (seq 10 23).

(** The loop leaves [alignment_log2] at the first [shift] whose power of two
    is [alignment] ([break]), and at [0] when there is none. *)
Definition alignment_log2_of (alignment : Z) : Z :=
  match find (fun shift => alignment =? wrap64 (Z.shiftl 1 shift))
             alignment_shifts with
  | Some shift => shift
  | None => 0
  end.

Definition GetAlignmentOptionFromAlignment (alignment : Z) : Z :=
  wrap32 (Z.shiftl (alignment_log2_of alignment) ZX_VM_ALIGN_BASE).

End Translators.

(** An alignment the resolver supports: a power of two from 1 KiB to 4 GiB. *)
Definition supported_alignment (alignment : Z) : Prop :=
  exists k, 10 <= k <= 32 /\ alignment = 2 ^ k.

(** ** Zircon system calls

    Every call the file makes through the [zx::] wrappers, with the
    arguments it passes.  A reply carries the [zx_status_t] and what the
    kernel stores through the out-pointers: [r_val] is the new handle of
    [vmo::create], [replace_as_executable] and [vmar::allocate], the mapped
    address of [vmar::map] and [total_runtime] of the thread statistics;
    [r_val2] is the child's address of [vmar::allocate]. *)

Inductive syscall : Type :=
| zx_vmo_create (size options : Z)
| zx_object_set_property (handle property : Z) (value : string) (value_size : Z)
| zx_vmo_replace_as_executable (vmo vmex : Z)
| zx_vmar_map (vmar options vmar_offset vmo vmo_offset len : Z)
| zx_vmar_unmap (vmar addr len : Z)
| zx_vmar_protect (vmar options addr len : Z)
| zx_vmar_op_range (vmar op addr len : Z)
| zx_vmar_allocate (vmar options offset size : Z)
| zx_vmar_destroy (vmar : Z)
| zx_object_get_info (handle topic : Z).

Record reply : Type := mkReply {
  r_status : Z;
  r_val : Z;
  r_val2 : Z
}.

Definition event : Type := syscall * reply.

(** The calls that place something in an address space. *)
Definition is_placement (e : event) : bool :=
  match fst e with
  | zx_vmar_map _ _ _ _ _ _ | zx_vmar_allocate _ _ _ _ => true
  | _ => false
  end.

Definition placements (tr : list event) : list event := filter is_placement tr.

(** ** Programs that talk to the kernel

    A program returns, aborts the process (a failed [CHECK], [DCHECK] or
    [UNREACHABLE]) or makes a system call and goes on with the reply. *)

Inductive zx (A : Type) : Type :=
| Ret (a : A)
| Abort (why : string)
| Sys (c : syscall) (k : reply -> zx A).

Arguments Ret {A} a.
Arguments Abort {A} why.
Arguments Sys {A} c k.

Fixpoint bind {A B : Type} (m : zx A) (f : A -> zx B) : zx B :=
  match m with
  | Ret a => f a
  | Abort why => Abort why
  | Sys c k => Sys c (fun r => bind (k r) f)
  end.

Definition call (c : syscall) : zx reply := Sys c Ret.

Declare Scope zx_scope.
Delimit Scope zx_scope with zx.
Notation "x <- m ;; k" := (bind m (fun x => k))
  (at level 61, m at next level, right associativity) : zx_scope.
Notation "m ;; k" := (bind m (fun _ => k))
  (at level 61, right associativity) : zx_scope.
Local Open Scope zx_scope.

(** A kernel: some state and a deterministic answer to every call. *)
Record Kernel : Type := mkKernel {
  kstate : Type;
  ksys : syscall -> kstate -> reply * kstate
}.

Inductive outcome (A : Type) : Type :=
| Returned (a : A)
| Aborted (why : string).

Arguments Returned {A} a.
Arguments Aborted {A} why.

(** Running a program: the outcome, the kernel's final state and the calls
    made, in order, each with its reply. *)
Fixpoint run {A : Type} (K : Kernel) (p : zx A) (s : kstate K)
  : outcome A * kstate K * list event :=
  match p with
  | Ret a => (Returned a, s, [])
  | Abort why => (Aborted why, s, [])
  | Sys c k =>
      let (r, s1) := ksys K c s in
      let '(o, s2, tr) := run K (k r) s1 in
      (o, s2, (c, r) :: tr)
  end.

(** A kernel that answers from a script, whatever the call, and refuses
    every call once the script is over. *)
Definition refused : reply := mkReply (-1) 0 0.

Definition scripted : Kernel :=
  mkKernel (list reply)
    (fun _ s => match s with
                | r :: rest => (r, rest)
                | [] => (refused, [])
                end).

(** ** The file's own state and helpers *)

(** The two file-level variables: [OS::Initialize] writes them once, every
    other entry point only reads them. *)
Record Globals : Type := mkGlobals {
  g_vmex_resource : Z;
  g_root_vmar_base : Z
}.

(** [AddressSpaceReservation] (declared in [platform.h]): [base_], [size_]
    and the handle [vmar_] of the child address space. *)
Record AddressSpaceReservation : Type := mkReservation {
  base_ : Z;
  size_ : Z;
  vmar_ : Z
}.

(** Modelled from the spec: [AddressSpaceReservation::Contains] is declared
    in [platform.h], which is not part of the sources; the spec's
    containment check compares the range with the reservation's own base
    and size. *)
Definition Contains (r : AddressSpaceReservation) (region_addr region_size : Z)
  : bool :=
  (base_ r <=? region_addr) &&
  (region_addr + region_size <=? base_ r + size_ r).

Definition kVirtualMemoryName : string := "v8-virtualmem".

Definition strlen (s : string) : Z := Z.of_nat (String.length s).

(** What [OS::GetUserTime] leaves behind: its return value and the contents
    of [*secs] and [*usecs]. *)
Record UserTime : Type := mkUserTime {
  ut_return : Z;
  ut_secs : Z;
  ut_usecs : Z
}.

Section Program.
Context {P : Platform}.

Definition CHECK (cond : bool) (why : string) : zx unit :=
  if cond then Ret tt else Abort why.

(** [DCHECK] is [CHECK] on a [DEBUG] build and nothing otherwise.  The
    conditions are those of the source; where the source takes a remainder
    by a page size or an alignment that is [0], which C++ leaves undefined,
    [x mod 0] is what [Z.modulo] makes of it. *)
Definition DCHECK (cond : bool) (why : string) : zx unit :=
  if DEBUG then CHECK cond why else Ret tt.

(** [a && b] on two calls: [b] is made only when [a] returned [true]. *)
Definition and_then (a b : zx bool) : zx bool :=
  x <- a ;; if x then b else Ret false.

Definition AllocateInternal (g : Globals)
    (vmar vmar_base page_size address : Z) (placement : PlacementMode)
    (size alignment : Z) (access : MemoryPermission) : zx Z :=
  DCHECK (0 =? size mod page_size) "size % page_size" ;;
  DCHECK (0 =? alignment mod page_size) "alignment % page_size" ;;
  DCHECK (0 =? address mod alignment) "address % alignment" ;;
  DCHECK (implb (negb (PlacementMode_eqb placement kAnywhere))
                (negb (address =? nullptr))) "address != nullptr" ;;
  created <- call (zx_vmo_create size 0) ;;
  if negb (r_status created =? ZX_OK) then Ret nullptr else
  let vmo := r_val created in
  call (zx_object_set_property vmo ZX_PROP_NAME kVirtualMemoryName
          (strlen kVirtualMemoryName)) ;;
  replaced <- call (zx_vmo_replace_as_executable vmo (g_vmex_resource g)) ;;
  if negb (r_status replaced =? ZX_OK) then Ret nullptr else
  let vmo := r_val replaced in
  let options := GetProtectionFromMemoryPermission access in
  let alignment_option := GetAlignmentOptionFromAlignment alignment in
  CHECK (negb (0 =? alignment_option)) "Invalid alignment specified" ;;
  let options := Z.lor options alignment_option in
  placed <-
    (if negb (PlacementMode_eqb placement kAnywhere) then
       let target_addr := address in
       let base := vmar_base in
       DCHECK (base <=? target_addr) "target_addr >= base" ;;
       Ret (wrap64 (target_addr - base), Z.lor options ZX_VM_SPECIFIC)
     else Ret (0, options)) ;;
  let '(vmar_offset, options) := placed in
  mapped <- call (zx_vmar_map vmar options vmar_offset vmo 0 size) ;;
  mapped <-
    (if negb (r_status mapped =? ZX_OK)
        && PlacementMode_eqb placement kUseHint
     then
       let options := Z.land options (not32 ZX_VM_SPECIFIC) in
       call (zx_vmar_map vmar options 0 vmo 0 size)
     else Ret mapped) ;;
  if negb (r_status mapped =? ZX_OK) then Ret nullptr
  else Ret (r_val mapped).

Definition FreeInternal (vmar page_size address size : Z) : zx bool :=
  DCHECK (0 =? address mod page_size) "address % page_size" ;;
  DCHECK (0 =? size mod page_size) "size % page_size" ;;
  r <- call (zx_vmar_unmap vmar address size) ;;
  Ret (r_status r =? ZX_OK).

Definition SetPermissionsInternal (vmar page_size address size : Z)
    (access : MemoryPermission) : zx bool :=
  DCHECK (0 =? address mod page_size) "address % page_size" ;;
  DCHECK (0 =? size mod page_size) "size % page_size" ;;
  let prot := GetProtectionFromMemoryPermission access in
  r <- call (zx_vmar_protect vmar prot address size) ;;
  Ret (r_status r =? ZX_OK).

Definition DiscardSystemPagesInternal (vmar page_size address size : Z)
  : zx bool :=
  DCHECK (0 =? address mod page_size) "address % page_size" ;;
  DCHECK (0 =? size mod page_size) "size % page_size" ;;
  let address_int := address in
  r <- call (zx_vmar_op_range vmar ZX_VMO_OP_DECOMMIT address_int size) ;;
  Ret (r_status r =? ZX_OK).

(** The result is the reply of the last [vmar::allocate]: its status, the
    handle stored in [*child] and the address stored in [*child_addr].
    [max_permission] is taken and not looked at. *)
Definition CreateAddressSpaceReservationInternal (vmar vmar_base page_size
    address : Z) (placement : PlacementMode) (size alignment : Z)
    (max_permission : MemoryPermission) : zx reply :=
  DCHECK (0 =? size mod page_size) "size % page_size" ;;
  DCHECK (0 =? alignment mod page_size) "alignment % page_size" ;;
  DCHECK (0 =? address mod alignment) "address % alignment" ;;
  DCHECK (implb (negb (PlacementMode_eqb placement kAnywhere))
                (negb (address =? nullptr))) "address != nullptr" ;;
  let options :=
    Z.lor (Z.lor (Z.lor ZX_VM_CAN_MAP_READ ZX_VM_CAN_MAP_WRITE)
                 ZX_VM_CAN_MAP_EXECUTE) ZX_VM_CAN_MAP_SPECIFIC in
  let alignment_option := GetAlignmentOptionFromAlignment alignment in
  CHECK (negb (0 =? alignment_option)) "Invalid alignment specified" ;;
  let options := Z.lor options alignment_option in
  placed <-
    (if negb (PlacementMode_eqb placement kAnywhere) then
       let target_addr := address in
       let base := vmar_base in
       DCHECK (base <=? target_addr) "target_addr >= base" ;;
       Ret (wrap64 (target_addr - base), Z.lor options ZX_VM_SPECIFIC)
     else Ret (0, options)) ;;
  let '(vmar_offset, options) := placed in
  status <- call (zx_vmar_allocate vmar options vmar_offset size) ;;
  if negb (r_status status =? ZX_OK) && PlacementMode_eqb placement kUseHint
  then
    let options := Z.land options (not32 ZX_VM_SPECIFIC) in
    call (zx_vmar_allocate vmar options 0 size)
  else Ret status.

(** *** The root-level entry points *)

Definition OS_Allocate (g : Globals) (address size alignment : Z)
    (access : MemoryPermission) : zx Z :=
  let placement := if negb (address =? nullptr) then kUseHint else kAnywhere in
  AllocateInternal g root_self (g_root_vmar_base g) AllocatePageSize address
    placement size alignment access.

Definition OS_Free (address size : Z) : zx bool :=
  FreeInternal root_self AllocatePageSize address size.

Definition OS_Release (address size : Z) : zx bool := OS_Free address size.

Definition OS_SetPermissions (address size : Z) (access : MemoryPermission)
  : zx bool :=
  SetPermissionsInternal root_self CommitPageSize address size access.

Definition OS_DiscardSystemPages (address size : Z) : zx bool :=
  DiscardSystemPagesInternal root_self CommitPageSize address size.

Definition OS_DecommitPages (address size : Z) : zx bool :=
  and_then (OS_SetPermissions address size kNoAccess)
           (OS_DiscardSystemPages address size).

Definition OS_CanReserveAddressSpace : bool := true.

Definition OS_CreateAddressSpaceReservation (g : Globals)
    (hint size alignment : Z) (max_permission : MemoryPermission)
  : zx (option AddressSpaceReservation) :=
  DCHECK (0 =? hint mod alignment) "hint % alignment" ;;
  let placement := if negb (hint =? nullptr) then kUseHint else kAnywhere in
  status <- CreateAddressSpaceReservationInternal root_self
              (g_root_vmar_base g) AllocatePageSize hint placement size
              alignment max_permission ;;
  if negb (r_status status =? ZX_OK) then Ret None
  else Ret (Some (mkReservation (r_val2 status) size (r_val status))).

Definition OS_FreeAddressSpaceReservation
    (reservation : AddressSpaceReservation) : zx bool :=
  r <- call (zx_vmar_destroy (vmar_ reservation)) ;;
  Ret (r_status r =? ZX_OK).

Definition OS_HasLazyCommits : bool := true.

(** [secs] and [usecs] are what the caller's two variables hold on entry. *)
Definition OS_GetUserTime (secs usecs : Z) : zx UserTime :=
  let kNanosPerMicrosecond := 1000 in
  let kMicrosPerSecond := 1000000 in
  info <- call (zx_object_get_info thread_self ZX_INFO_THREAD_STATS) ;;
  if negb (r_status info =? ZX_OK) then Ret (mkUserTime (-1) secs usecs) else
  let total_runtime := r_val info in
  let micros_since_thread_started :=
    wrap64 (wrap64 (wrap64 total_runtime + kNanosPerMicrosecond) - 1)
    / kNanosPerMicrosecond in
  let secs := wrap32 (micros_since_thread_started / kMicrosPerSecond) in
  let usecs := wrap32 (micros_since_thread_started mod kMicrosPerSecond) in
  Ret (mkUserTime 0 secs usecs).

(** *** The methods of a reservation *)

Definition AddressSpaceReservation_CreateSubReservation
    (this : AddressSpaceReservation) (address size : Z)
    (max_permission : MemoryPermission)
  : zx (option AddressSpaceReservation) :=
  DCHECK (Contains this address size) "Contains(address, size)" ;;
  status <- CreateAddressSpaceReservationInternal (vmar_ this) (base_ this)
              AllocatePageSize address kFixed size AllocatePageSize
              max_permission ;;
  if negb (r_status status =? ZX_OK) then Ret None else
  DCHECK (r_val2 status =? address) "child_addr == address" ;;
  Ret (Some (mkReservation (r_val2 status) size (r_val status))).

Definition AddressSpaceReservation_FreeSubReservation (this reservation
    : AddressSpaceReservation) : zx bool :=
  OS_FreeAddressSpaceReservation reservation.

Definition AddressSpaceReservation_Allocate (g : Globals)
    (this : AddressSpaceReservation) (address size : Z)
    (access : MemoryPermission) : zx bool :=
  DCHECK (Contains this address size) "Contains(address, size)" ;;
  allocation <- AllocateInternal g (vmar_ this) (base_ this) AllocatePageSize
                  address kFixed size AllocatePageSize access ;;
  DCHECK ((allocation =? nullptr) || (allocation =? address))
         "!allocation || allocation == address" ;;
  Ret (negb (allocation =? nullptr)).

Definition AddressSpaceReservation_Free (this : AddressSpaceReservation)
    (address size : Z) : zx bool :=
  DCHECK (Contains this address size) "Contains(address, size)" ;;
  FreeInternal (vmar_ this) AllocatePageSize address size.

Definition AddressSpaceReservation_SetPermissions
    (this : AddressSpaceReservation) (address size : Z)
    (access : MemoryPermission) : zx bool :=
  DCHECK (Contains this address size) "Contains(address, size)" ;;
  SetPermissionsInternal (vmar_ this) CommitPageSize address size access.

Definition AddressSpaceReservation_DiscardSystemPages
    (this : AddressSpaceReservation) (address size : Z) : zx bool :=
  DCHECK (Contains this address size) "Contains(address, size)" ;;
  DiscardSystemPagesInternal (vmar_ this) CommitPageSize address size.

Definition AddressSpaceReservation_DecommitPages
    (this : AddressSpaceReservation) (address size : Z) : zx bool :=
  DCHECK (Contains this address size) "Contains(address, size)" ;;
  and_then (AddressSpaceReservation_SetPermissions this address size kNoAccess)
           (AddressSpaceReservation_DiscardSystemPages this address size).

End Program.

(** ** What a run of the two primitives can look like

    The shapes below are what the properties are stated against; that every
    run has one of them is proved, not assumed. *)

Section Shapes.
Context {P : Platform}.

(** The three calls every committed allocation starts with, with the replies
    [r0], [r1] and [r2] of the kernel. *)
Definition vmo_prologue (g : Globals) (size : Z) (r0 r1 r2 : reply)
  : list event :=
  [(zx_vmo_create size 0, r0);
   (zx_object_set_property (r_val r0) ZX_PROP_NAME kVirtualMemoryName
      (strlen kVirtualMemoryName), r1);
   (zx_vmo_replace_as_executable (r_val r0) (g_vmex_resource g), r2)].

(** Option bits and offset of the first placement attempt in each mode. *)
Definition first_options (placement : PlacementMode) (options : Z) : Z :=
  match placement with
  | kAnywhere => options
  | kUseHint | kFixed => Z.lor options ZX_VM_SPECIFIC
  end.

Definition first_offset (placement : PlacementMode) (vmar_base address : Z)
  : Z :=
  match placement with
  | kAnywhere => 0
  | kUseHint | kFixed => wrap64 (address - vmar_base)
  end.

Inductive AllocateRun (g : Globals) (vmar vmar_base address : Z)
    (placement : PlacementMode) (size alignment : Z)
    (access : MemoryPermission) : outcome Z -> list event -> Prop :=
| AllocateRejected why :
    AllocateRun g vmar vmar_base address placement size alignment access
      (Aborted why) []
| AllocateStopped why r0 r1 r2 :
    r_status r0 = ZX_OK -> r_status r2 = ZX_OK ->
    AllocateRun g vmar vmar_base address placement size alignment access
      (Aborted why) (vmo_prologue g size r0 r1 r2)
| AllocateNoVmo r0 :
    r_status r0 <> ZX_OK ->
    AllocateRun g vmar vmar_base address placement size alignment access
      (Returned nullptr) [(zx_vmo_create size 0, r0)]
| AllocateNoExec r0 r1 r2 :
    r_status r0 = ZX_OK -> r_status r2 <> ZX_OK ->
    AllocateRun g vmar vmar_base address placement size alignment access
      (Returned nullptr) (vmo_prologue g size r0 r1 r2)
| AllocateOnce r0 r1 r2 r3 :
    r_status r0 = ZX_OK -> r_status r2 = ZX_OK ->
    r_status r3 = ZX_OK \/ placement <> kUseHint ->
    let options :=
      Z.lor (GetProtectionFromMemoryPermission access)
            (GetAlignmentOptionFromAlignment alignment) in
    AllocateRun g vmar vmar_base address placement size alignment access
      (Returned (if r_status r3 =? ZX_OK then r_val r3 else nullptr))
      (vmo_prologue g size r0 r1 r2 ++
       [(zx_vmar_map vmar (first_options placement options)
           (first_offset placement vmar_base address) (r_val r2) 0 size, r3)])
| AllocateRetried r0 r1 r2 r3 r4 :
    r_status r0 = ZX_OK -> r_status r2 = ZX_OK ->
    r_status r3 <> ZX_OK -> placement = kUseHint ->
    let options :=
      Z.lor (GetProtectionFromMemoryPermission access)
            (GetAlignmentOptionFromAlignment alignment) in
    AllocateRun g vmar vmar_base address placement size alignment access
      (Returned (if r_status r4 =? ZX_OK then r_val r4 else nullptr))
      (vmo_prologue g size r0 r1 r2 ++
       [(zx_vmar_map vmar (Z.lor options ZX_VM_SPECIFIC)
           (wrap64 (address - vmar_base)) (r_val r2) 0 size, r3);
        (zx_vmar_map vmar
           (Z.land (Z.lor options ZX_VM_SPECIFIC) (not32 ZX_VM_SPECIFIC))
           0 (r_val r2) 0 size, r4)]).

(** The creation bits every reservation asks for. *)
Definition can_map_everything : Z :=
  Z.lor (Z.lor (Z.lor ZX_VM_CAN_MAP_READ ZX_VM_CAN_MAP_WRITE)
               ZX_VM_CAN_MAP_EXECUTE) ZX_VM_CAN_MAP_SPECIFIC.

Inductive ReserveRun (vmar vmar_base address : Z) (placement : PlacementMode)
    (size alignment : Z) : outcome reply -> list event -> Prop :=
| ReserveAborted why :
    ReserveRun vmar vmar_base address placement size alignment
      (Aborted why) []
| ReserveOnce r1 :
    r_status r1 = ZX_OK \/ placement <> kUseHint ->
    let options :=
      Z.lor can_map_everything (GetAlignmentOptionFromAlignment alignment) in
    ReserveRun vmar vmar_base address placement size alignment
      (Returned r1)
      [(zx_vmar_allocate vmar (first_options placement options)
          (first_offset placement vmar_base address) size, r1)]
| ReserveRetried r1 r2 :
    r_status r1 <> ZX_OK -> placement = kUseHint ->
    let options :=
      Z.lor can_map_everything (GetAlignmentOptionFromAlignment alignment) in
    ReserveRun vmar vmar_base address placement size alignment
      (Returned r2)
      [(zx_vmar_allocate vmar (Z.lor options ZX_VM_SPECIFIC)
          (wrap64 (address - vmar_base)) size, r1);
       (zx_vmar_allocate vmar
          (Z.land (Z.lor options ZX_VM_SPECIFIC) (not32 ZX_VM_SPECIFIC))
          0 size, r2)].

(** [options'] is [options] with the bits of [ZX_VM_SPECIFIC] taken out and
    every other bit of the 32-bit option word as it was. *)
Definition without_specific (options options' : Z) : Prop :=
  forall i, 0 <= i < 32 ->
    Z.testbit options' i =
    Z.testbit options i && negb (Z.testbit ZX_VM_SPECIFIC i).

(** [retry] is the placement request [first] made again for the kernel to
    choose the address: same address space, same memory object and offset
    into it, same size, offset [0], and the options of [first] without
    [ZX_VM_SPECIFIC]. *)
Definition retry_of (first retry : syscall) : Prop :=
  match first, retry with
  | zx_vmar_map vmar options _ vmo vmo_offset len,
    zx_vmar_map vmar' options' vmar_offset' vmo' vmo_offset' len' =>
      vmar' = vmar /\ vmo' = vmo /\ vmo_offset' = vmo_offset /\ len' = len /\
      vmar_offset' = 0 /\ without_specific options options'
  | zx_vmar_allocate vmar options _ size,
    zx_vmar_allocate vmar' options' offset' size' =>
      vmar' = vmar /\ size' = size /\ offset' = 0 /\
      without_specific options options'
  | _, _ => False
  end.

(** Zircon's contract for [ZX_VM_SPECIFIC] on the address space [vmar] whose
    base is [vmar_base]: a mapping asked for with the option is made at the
    given offset from the base, or not at all. *)
Definition honours_specific (K : Kernel) (vmar vmar_base : Z) : Prop :=
  forall s options vmar_offset vmo vmo_offset len,
    let r :=
      fst (ksys K (zx_vmar_map vmar options vmar_offset vmo vmo_offset len) s)
    in
    r_status r = ZX_OK ->
    Z.land options ZX_VM_SPECIFIC = ZX_VM_SPECIFIC ->
    r_val r = vmar_base + vmar_offset.

(** [decommit] is [set_permissions] followed by [discard] on the address
    space [vmar], started in the kernel state [s]: the first protects the
    range with the empty bitmask, the second decommits it, and [decommit]
    makes the first call, then the second one only if the first was granted,
    and nothing after it; it returns [true] exactly when both were
    granted. *)
Definition two_step_decommit (K : Kernel) (s : kstate K)
    (vmar address size : Z) (decommit set_permissions discard : zx bool)
  : Prop :=
  let protect := zx_vmar_protect vmar 0 address size in
  let decommit_range :=
    zx_vmar_op_range vmar ZX_VMO_OP_DECOMMIT address size in
  let (r1, s1) := ksys K protect s in
  let (r2, s2) := ksys K decommit_range s1 in
  let ok1 := r_status r1 =? ZX_OK in
  let ok2 := r_status r2 =? ZX_OK in
  run K set_permissions s = (Returned ok1, s1, [(protect, r1)]) /\
  run K discard s1 = (Returned ok2, s2, [(decommit_range, r2)]) /\
  run K decommit s =
    (if ok1 then (Returned ok2, s2, [(protect, r1); (decommit_range, r2)])
     else (Returned false, s1, [(protect, r1)])) /\
  fst (fst (run K decommit s)) = Returned (ok1 && ok2).

End Shapes.

(** ** Concrete runs

    A process whose root address space starts at [0x200000], which holds the
    executable capability under handle [9], and some kernel scripts. *)

Definition demo_globals : Globals := mkGlobals 9 2097152.

(** The kernel gives a memory object, makes it executable, refuses the
    hinted placement and accepts the second one at [0x500000]. *)
Definition hint_refused : list reply :=
  [mkReply 0 5 0; mkReply 0 0 0; mkReply 0 6 0; mkReply (-1) 0 0;
   mkReply 0 5242880 0].

(** The kernel gives a memory object and refuses to make it executable. *)
Definition upgrade_refused : list reply :=
  [mkReply 0 5 0; mkReply 0 0 0; mkReply (-30) 0 0].

(** A kernel that grants every request and places a mapping at the offset it
    is given from [vmar_base]. *)
Definition obliging (vmar_base : Z) : Kernel :=
  mkKernel unit
    (fun c s =>
       match c with
       | zx_vmar_map _ _ vmar_offset _ _ _ =>
           (mkReply 0 (vmar_base + vmar_offset) 0, s)
       | _ => (mkReply 0 5 0, s)
       end).

(** A reservation of sixteen pages at [0x400000]. *)
Definition demo_reservation : AddressSpaceReservation :=
  mkReservation 4194304 65536 7.

(** A read-only allocation whose memory object cannot be made executable. *)
Definition demo_upgrade_refused : outcome Z * list reply * list event :=
  run scripted
    (AllocateInternal (P := zircon_release) demo_globals 1 2097152 4096
       3145728 kUseHint 8192 4096 kRead)
    upgrade_refused.

(** One page allocated two pages into [demo_reservation]. *)
Definition demo_fixed : outcome bool * unit * list event :=
  run (obliging 4194304)
    (AddressSpaceReservation_Allocate (P := zircon_release) demo_globals
       demo_reservation 4202496 4096 kReadWrite)
    tt.

(** The kernel grants the change of protection and refuses to decommit. *)
Definition discard_refused : list reply := [mkReply 0 0 0; refused].

(** ** The CPU-time conversion in the specification's words

    These two definitions follow the specification, not the source: round
    the nanoseconds up to microseconds, then split by a million, with no
    account taken of the width of the outputs.  They are compared with
    [OS_GetUserTime] below. *)

(** The least number of [d]s that covers [n]. *)
Definition ceil_div (n d : Z) : Z := - ((- n) / d).

(** Round the nanoseconds up to microseconds, then split by a million. *)
Definition unbounded_user_time (total_runtime : Z) : UserTime :=
  let micros := ceil_div total_runtime 1000 in
  mkUserTime 0 (micros / 1000000) (micros mod 1000000).

(** ** Further vocabulary: option words, aborts and the kernel's contract
    for reservations *)

Section MoreShapes.
Context {P : Platform}.

(** The three permission bits together. *)
Definition perm_everything : Z :=
  Z.lor (Z.lor ZX_VM_PERM_READ ZX_VM_PERM_WRITE) ZX_VM_PERM_EXECUTE.

(** The permission bits are three different, non-empty sets of bits. *)
Definition distinct_permissions : Prop :=
  ZX_VM_PERM_READ <> 0 /\ ZX_VM_PERM_WRITE <> 0 /\ ZX_VM_PERM_EXECUTE <> 0 /\
  Z.land ZX_VM_PERM_READ ZX_VM_PERM_WRITE = 0 /\
  Z.land ZX_VM_PERM_READ ZX_VM_PERM_EXECUTE = 0 /\
  Z.land ZX_VM_PERM_WRITE ZX_VM_PERM_EXECUTE = 0.

(** How [zircon/types.h] lays out a 32-bit option word: the alignment class
    sits from bit [ZX_VM_ALIGN_BASE] up, [ZX_VM_SPECIFIC] below it, and
    [ZX_VM_SPECIFIC] is neither a permission nor a creation bit. *)
Definition option_layout : Prop :=
  0 <= ZX_VM_ALIGN_BASE /\
  0 <= ZX_VM_SPECIFIC < 2 ^ ZX_VM_ALIGN_BASE /\
  0 <= perm_everything < 2 ^ 32 /\
  Z.land perm_everything ZX_VM_SPECIFIC = 0 /\
  0 <= can_map_everything < 2 ^ 32 /\
  Z.land can_map_everything ZX_VM_SPECIFIC = 0.

(** A run of [p] that aborts does so before its first system call. *)
Definition aborts_first {A : Type} (K : Kernel) (s : kstate K) (p : zx A)
  : Prop :=
  forall why s' tr, run K p s = (Aborted why, s', tr) -> tr = [] /\ s' = s.

(** A run of [p] returns to its caller: the process is not aborted. *)
Definition returns {A : Type} (K : Kernel) (s : kstate K) (p : zx A) : Prop :=
  exists a s' tr, run K p s = (Returned a, s', tr).


(** Zircon's contract for [ZX_VM_SPECIFIC] in [vmar::allocate]: a child asked
    for with the option is made at the given offset from the parent's base,
    or not at all. *)
Definition honours_specific_allocate (K : Kernel) (vmar vmar_base : Z)
  : Prop :=
  forall s options offset size,
    let r := fst (ksys K (zx_vmar_allocate vmar options offset size) s) in
    r_status r = ZX_OK ->
    Z.land options ZX_VM_SPECIFIC = ZX_VM_SPECIFIC ->
    r_val2 r = vmar_base + offset.

End MoreShapes.

(** A kernel that grants every request and makes a child address space at the
    offset it is given from [vmar_base], under handle [8]. *)
Definition obliging_parent (vmar_base : Z) : Kernel :=
  mkKernel unit
    (fun c s =>
       match c with
       | zx_vmar_allocate _ _ offset _ => (mkReply 0 8 (vmar_base + offset), s)
       | _ => (mkReply 0 5 0, s)
       end).

(** A hinted read-write allocation of two pages that the kernel places
    elsewhere. *)
Definition demo_hinted : outcome Z * list reply * list event :=
  run scripted
    (AllocateInternal (P := zircon_release) demo_globals 1 2097152 4096
       3145728 kUseHint 8192 4096 kReadWrite)
    hint_refused.

(** Two pages of [demo_reservation], two pages in, reserved again. *)
Definition demo_sub
  : outcome (option AddressSpaceReservation) * unit * list event :=
  run (obliging_parent 4194304)
    (AddressSpaceReservation_CreateSubReservation (P := zircon_release)
       demo_reservation 4202496 8192 kReadWrite)
    tt.

(** * Properties *)

(** ** Machine integers and enumerations *)

Lemma PlacementMode_eqb_eq (a b : PlacementMode) :
  PlacementMode_eqb a b = true <-> a = b.
Proof.
  destruct a, b; simpl; split; intro H; try reflexivity; discriminate H.
Qed.

Lemma all_permissions_complete (a : MemoryPermission) : In a all_permissions.
Proof. destruct a; simpl; tauto. Qed.

Lemma all_permissions_NoDup : NoDup all_permissions.
Proof.
  unfold all_permissions.
  repeat (constructor; [simpl; intuition discriminate|]).
  constructor.
Qed.

Lemma In_alignment_shifts (k : Z) : In k alignment_shifts <-> 10 <= k <= 32.
Proof.
  unfold alignment_shifts. rewrite in_map_iff. split.
  - intros (n & <- & Hn). apply in_seq in Hn. lia.
  - intro Hk. exists (Z.to_nat k). split; [lia|]. apply in_seq. lia.
Qed.

Lemma alignment_shifts_pow2 (k : Z) :
  10 <= k <= 32 -> wrap64 (Z.shiftl 1 k) = 2 ^ k.
Proof.
  intro Hk. apply In_alignment_shifts in Hk.
  assert (Hall : forallb (fun k => wrap64 (Z.shiftl 1 k) =? 2 ^ k)
                         alignment_shifts = true) by (vm_compute; reflexivity).
  rewrite forallb_forall in Hall. apply Z.eqb_eq, Hall, Hk.
Qed.

Lemma alignment_log2_of_supported (k : Z) :
  10 <= k <= 32 -> alignment_log2_of (2 ^ k) = k.
Proof.
  intro Hk. apply In_alignment_shifts in Hk.
  assert (Hall : forallb (fun k => alignment_log2_of (2 ^ k) =? k)
                         alignment_shifts = true) by (vm_compute; reflexivity).
  rewrite forallb_forall in Hall. apply Z.eqb_eq, Hall, Hk.
Qed.

Lemma alignment_log2_of_unsupported (alignment : Z) :
  ~ supported_alignment alignment -> alignment_log2_of alignment = 0.
Proof.
  intro Hn. unfold alignment_log2_of.
  destruct (find _ alignment_shifts) as [shift|] eqn:E; [|reflexivity].
  exfalso. apply find_some in E as [Hin Heq].
  apply In_alignment_shifts in Hin. apply Z.eqb_eq in Heq.
  rewrite alignment_shifts_pow2 in Heq by exact Hin.
  apply Hn. exists shift. split; assumption.
Qed.

Section TranslatorFacts.
Context {P : Platform}.

Lemma class_no_wrap (k : Z) :
  0 <= ZX_VM_ALIGN_BASE <= 26 -> 10 <= k <= 32 ->
  wrap32 (Z.shiftl k ZX_VM_ALIGN_BASE) = k * 2 ^ ZX_VM_ALIGN_BASE.
Proof.
  intros Hb Hk. unfold wrap32. rewrite Z.shiftl_mul_pow2 by lia.
  apply Z.mod_small.
  assert (0 < 2 ^ ZX_VM_ALIGN_BASE) by (apply Z.pow_pos_nonneg; lia).
  assert (2 ^ ZX_VM_ALIGN_BASE <= 2 ^ 26) by (apply Z.pow_le_mono_r; lia).
  change (2 ^ 26) with 67108864 in *. change (2 ^ 32) with 4294967296. nia.
Qed.

(** C6.  Provided [ZX_VM_ALIGN_BASE] leaves room for the class in a 32-bit
    option word (it lies between 0 and 26; Zircon's is 24): for every power
    of two [2^k] from 1 KiB to 4 GiB the alignment resolver returns
    [k << ZX_VM_ALIGN_BASE], where [k] is the base-2 logarithm of the
    alignment, and that value is not zero; two different supported alignments
    get two different classes; and every other input gets [0].  The last part
    needs no assumption on [ZX_VM_ALIGN_BASE]. *)
Theorem GetAlignmentOptionFromAlignment_classes :
  0 <= ZX_VM_ALIGN_BASE <= 26 ->
  (forall k, 10 <= k <= 32 ->
     Z.log2 (2 ^ k) = k /\
     GetAlignmentOptionFromAlignment (2 ^ k) = Z.shiftl k ZX_VM_ALIGN_BASE /\
     GetAlignmentOptionFromAlignment (2 ^ k) <> 0) /\
  (forall a b, supported_alignment a -> supported_alignment b -> a <> b ->
     GetAlignmentOptionFromAlignment a <> GetAlignmentOptionFromAlignment b) /\
  (forall a, ~ supported_alignment a -> GetAlignmentOptionFromAlignment a = 0).
Proof.
  intro Hb.
  assert (Hpos : 0 < 2 ^ ZX_VM_ALIGN_BASE) by (apply Z.pow_pos_nonneg; lia).
  split; [|split].
  - intros k Hk. unfold GetAlignmentOptionFromAlignment.
    rewrite alignment_log2_of_supported, class_no_wrap by assumption.
    split; [apply Z.log2_pow2; lia|]. split.
    + rewrite Z.shiftl_mul_pow2 by lia. reflexivity.
    + nia.
  - intros a b (ka & Hka & ->) (kb & Hkb & ->) Hne.
    unfold GetAlignmentOptionFromAlignment.
    rewrite !alignment_log2_of_supported, !class_no_wrap by assumption.
    intro Heq. apply Hne. f_equal. nia.
  - intros a Ha. unfold GetAlignmentOptionFromAlignment.
    rewrite alignment_log2_of_unsupported by exact Ha.
    rewrite Z.shiftl_0_l. reflexivity.
Qed.

(** C7.  The permission translator is a function on the six access levels
    (the enumeration lists each level once and misses none), it has a value at
    each of them, the same value whenever it is asked about the same level,
    and that value is the empty bitmask for [kNoAccess] and for
    [kNoAccessWillJitLater]. *)
Theorem GetProtectionFromMemoryPermission_total :
  (forall a, In a all_permissions) /\
  NoDup all_permissions /\ List.length all_permissions = 6%nat /\
  (forall a, exists bits, GetProtectionFromMemoryPermission a = bits) /\
  (forall a b, a = b ->
     GetProtectionFromMemoryPermission a
     = GetProtectionFromMemoryPermission b) /\
  GetProtectionFromMemoryPermission kNoAccess = 0 /\
  GetProtectionFromMemoryPermission kNoAccessWillJitLater = 0.
Proof.
  repeat split.
  - exact all_permissions_complete.
  - exact all_permissions_NoDup.
  - intro a. eexists. reflexivity.
  - intros a b ->. reflexivity.
Qed.

End TranslatorFacts.

Lemma GetAlignmentOptionFromAlignment_classes_witness :
  Z.log2 (2 ^ 12) = 12 /\
  GetAlignmentOptionFromAlignment (P := zircon_release) (2 ^ 12)
  = Z.shiftl 12 24 /\
  GetAlignmentOptionFromAlignment (P := zircon_release) (2 ^ 12) <> 0.
Proof.
  apply (proj1 (GetAlignmentOptionFromAlignment_classes (P := zircon_release)
                  ltac:(vm_compute; split; discriminate)) 12).
  lia.
Defined.

Lemma GetProtectionFromMemoryPermission_total_witness :
  GetProtectionFromMemoryPermission (P := zircon_release) kReadExecute
  = GetProtectionFromMemoryPermission (P := zircon_release) kReadExecute.
Proof.
  destruct (GetProtectionFromMemoryPermission_total (P := zircon_release))
    as (_ & _ & _ & _ & Hsame & _).
  apply (Hsame kReadExecute kReadExecute). reflexivity.
Defined.

(** ** Running programs *)

Lemma run_bind {A B : Type} (K : Kernel) (m : zx A) (f : A -> zx B)
    (s : kstate K) :
  run K (bind m f) s =
  match run K m s with
  | (Returned a, s1, t1) =>
      let '(o, s2, t2) := run K (f a) s1 in (o, s2, t1 ++ t2)
  | (Aborted why, s1, t1) => (Aborted why, s1, t1)
  end.
Proof.
  revert s. induction m as [a|why|c k IH]; intro s; simpl.
  - destruct (run K (f a) s) as [[o s2] t2]. reflexivity.
  - reflexivity.
  - destruct (ksys K c s) as [r s1]. rewrite IH.
    destruct (run K (k r) s1) as [[[a|why] s2] t1]; [|reflexivity].
    destruct (run K (f a) s2) as [[o s3] t2]. reflexivity.
Qed.

Lemma run_bind_assoc {A B C : Type} (K : Kernel) (m : zx A) (f : A -> zx B)
    (h : B -> zx C) (s : kstate K) :
  run K (bind (bind m f) h) s = run K (bind m (fun x => bind (f x) h)) s.
Proof.
  revert s. induction m as [a|why|c k IH]; intro s; simpl; try reflexivity.
  destruct (ksys K c s) as [r s1]. rewrite IH. reflexivity.
Qed.

Section Runs.
Context {P : Platform}.

Lemma run_DCHECK {A : Type} (K : Kernel) (cond : bool) (why : string)
    (k : unit -> zx A) (s : kstate K) :
  run K (bind (DCHECK cond why) k) s =
  if DEBUG && negb cond then (Aborted why, s, []) else run K (k tt) s.
Proof.
  unfold DCHECK, CHECK. destruct DEBUG, cond; reflexivity.
Qed.

Lemma run_CHECK {A : Type} (K : Kernel) (cond : bool) (why : string)
    (k : unit -> zx A) (s : kstate K) :
  run K (bind (CHECK cond why) k) s =
  if cond then run K (k tt) s else (Aborted why, s, []).
Proof.
  unfold CHECK. destruct cond; reflexivity.
Qed.

Lemma run_call {A : Type} (K : Kernel) (c : syscall) (k : reply -> zx A)
    (s : kstate K) :
  run K (bind (call c) k) s =
  let (r, s1) := ksys K c s in
  let '(o, s2, tr) := run K (k r) s1 in (o, s2, (c, r) :: tr).
Proof. reflexivity. Qed.

(** One step of a run: a check, a call, or a branch on a reply. *)
Ltac run_step :=
  match goal with
  | |- context [run _ (bind (bind _ _) _) _] => rewrite run_bind_assoc
  | |- context [run _ (bind (DCHECK ?c _) _) _] =>
      rewrite run_DCHECK; destruct (DEBUG && negb c) eqn:?
  | |- context [run _ (bind (CHECK ?c _) _) _] =>
      rewrite run_CHECK; destruct c eqn:?
  | |- context [run _ (bind (call ?c) _) ?s] =>
      rewrite run_call; destruct (ksys _ c s) as [? ?] eqn:?
  | |- context [run _ (if ?c then _ else _) _] => destruct c eqn:?
  | |- context [run _ (bind (if ?c then _ else _) _) _] => destruct c eqn:?
  | |- context [run _ (bind (Ret _) _) _] => cbn [bind]
  | |- context [run _ (Ret _) _] => cbn [run]
  | |- context [run _ (call _) ?s] => unfold call at 1; cbn [run]
  | |- context [let (_, _) := ksys ?K ?c ?s in _] =>
      destruct (ksys K c s) as [? ?] eqn:?
  end.

(** Tests on replies and modes, as booleans ready for rewriting. *)
Ltac status_bools :=
  repeat match goal with
  | H : negb _ = true |- _ => apply negb_true_iff in H
  | H : negb _ = false |- _ => apply negb_false_iff in H
  | H : _ && _ = true |- _ => apply andb_true_iff in H; destruct H
  | H : _ && true = false |- _ => rewrite andb_true_r in H
  | H : _ && false = true |- _ => rewrite andb_false_r in H
  | H : false = true |- _ => discriminate H
  | H : true = false |- _ => discriminate H
  end.

Ltac status_props :=
  match goal with
  | |- _ = ZX_OK => apply Z.eqb_eq; assumption
  | |- _ <> ZX_OK => apply Z.eqb_neq; assumption
  | |- _ = ZX_OK \/ _ => left; apply Z.eqb_eq; assumption
  | |- _ \/ _ <> _ => right; discriminate
  | |- @eq PlacementMode _ _ => reflexivity
  end.

(** Instantiate a shape at the replies found in the trace and replace the
    test on the last reply by its value. *)
Ltac use_shape lemma r :=
  generalize lemma; cbv zeta;
  cbn [app vmo_prologue first_options first_offset];
  match goal with
  | H : (r_status r =? ZX_OK) = _ |- _ => rewrite H
  end;
  let X := fresh in intro X; apply X; status_props.

Lemma AllocateInternal_run (K : Kernel) (s : kstate K) (g : Globals)
    (vmar vmar_base page_size address : Z) (placement : PlacementMode)
    (size alignment : Z) (access : MemoryPermission) :
  AllocateRun g vmar vmar_base address placement size alignment access
    (fst (fst (run K (AllocateInternal g vmar vmar_base page_size address
                        placement size alignment access) s)))
    (snd (run K (AllocateInternal g vmar vmar_base page_size address
                   placement size alignment access) s)).
Proof.
  unfold AllocateInternal.
  destruct placement; cbn [PlacementMode_eqb negb].
  all: repeat run_step; cbn [fst snd].
  all: try apply AllocateRejected.
  all: status_bools.
  all: try congruence.
  all: try (apply AllocateStopped; status_props).
  all: try (apply AllocateNoVmo; status_props).
  all: try (apply AllocateNoExec; status_props).
  all: match goal with
       | |- AllocateRun ?g ?v ?b ?a ?pl ?sz ?al ?ac _
              [(_, ?r0); (_, ?r1); (_, ?r2); (_, ?r3)] =>
           use_shape (AllocateOnce g v b a pl sz al ac r0 r1 r2 r3) r3
       | |- AllocateRun ?g ?v ?b ?a ?pl ?sz ?al ?ac _
              [(_, ?r0); (_, ?r1); (_, ?r2); (_, ?r3); (_, ?r4)] =>
           use_shape (AllocateRetried g v b a pl sz al ac r0 r1 r2 r3 r4) r4
       end.
Qed.

Lemma CreateAddressSpaceReservationInternal_run (K : Kernel) (s : kstate K)
    (vmar vmar_base page_size address : Z) (placement : PlacementMode)
    (size alignment : Z) (max_permission : MemoryPermission) :
  ReserveRun vmar vmar_base address placement size alignment
    (fst (fst (run K (CreateAddressSpaceReservationInternal vmar vmar_base
                        page_size address placement size alignment
                        max_permission) s)))
    (snd (run K (CreateAddressSpaceReservationInternal vmar vmar_base
                   page_size address placement size alignment
                   max_permission) s)).
Proof.
  unfold CreateAddressSpaceReservationInternal.
  destruct placement; cbn [PlacementMode_eqb negb].
  all: repeat run_step; cbn [fst snd].
  all: try apply ReserveAborted.
  all: status_bools.
  all: try congruence.
  all: fold can_map_everything.
  all: match goal with
       | |- ReserveRun ?v ?b ?a ?pl ?sz ?al _ [(_, ?r1)] =>
           generalize (ReserveOnce v b a pl sz al r1); cbv zeta;
           cbn [first_options first_offset];
           let X := fresh in intro X; apply X; status_props
       | |- ReserveRun ?v ?b ?a ?pl ?sz ?al _ [(_, ?r1); (_, ?r2)] =>
           generalize (ReserveRetried v b a pl sz al r1 r2); cbv zeta;
           let X := fresh in intro X; apply X; status_props
       end.
Qed.

End Runs.

(** ** The placement protocol *)

Section Placement.
Context {P : Platform}.

Lemma without_specific_land (options : Z) :
  without_specific options (Z.land options (not32 ZX_VM_SPECIFIC)).
Proof.
  intros i Hi. unfold not32, wrap32.
  rewrite Z.land_spec, Z.mod_pow2_bits_low, Z.lnot_spec by lia.
  reflexivity.
Qed.

Lemma run_triple {A : Type} (K : Kernel) (p : zx A) (s : kstate K)
    (o : outcome A) (s' : kstate K) (tr : list event) :
  run K p s = (o, s', tr) ->
  fst (fst (run K p s)) = o /\ snd (run K p s) = tr.
Proof. intros ->. split; reflexivity. Qed.

(** The protocol for a committed allocation. *)
Lemma AllocateInternal_retry (K : Kernel) (s : kstate K) (g : Globals)
    (vmar vmar_base page_size address : Z) (placement : PlacementMode)
    (size alignment : Z) (access : MemoryPermission)
    (o : outcome Z) (s' : kstate K) (tr : list event)
    (c1 : syscall) (r1 : reply) (rest : list event) :
  run K (AllocateInternal g vmar vmar_base page_size address placement size
           alignment access) s = (o, s', tr) ->
  placements tr = (c1, r1) :: rest ->
  (r_status r1 = ZX_OK -> rest = [] /\ o = Returned (r_val r1)) /\
  (r_status r1 <> ZX_OK ->
   match placement with
   | kUseHint =>
       exists c2 r2, rest = [(c2, r2)] /\ retry_of c1 c2 /\
         o = Returned (if r_status r2 =? ZX_OK then r_val r2 else nullptr)
   | kAnywhere | kFixed => rest = [] /\ o = Returned nullptr
   end).
Proof.
  intros Hrun Hp. apply run_triple in Hrun as [Ho Htr].
  pose proof (AllocateInternal_run K s g vmar vmar_base page_size address
                placement size alignment access) as Hshape.
  rewrite Ho, Htr in Hshape. clear Ho Htr.
  destruct Hshape as [why | why q0 q1 q2 Hq0 Hq2 | q0 Hq0
                      | q0 q1 q2 Hq0 Hq2 | q0 q1 q2 q3 Hq0 Hq2 Hq3
                      | q0 q1 q2 q3 q4 Hq0 Hq2 Hq3 Hmode];
    cbn in Hp; try discriminate Hp.
  - (* one attempt *)
    injection Hp as <- <- <-. split.
    + intro Hok. apply Z.eqb_eq in Hok. rewrite Hok. split; reflexivity.
    + intro Hko. destruct Hq3 as [Hok|Hmode]; [contradiction|].
      apply Z.eqb_neq in Hko. rewrite Hko.
      destruct placement; [congruence| |]; split; reflexivity.
  - (* two attempts *)
    injection Hp as <- <- <-. subst placement.
    split; [intro; contradiction|].
    intros _. eexists _, q4.
    split; [reflexivity|]. split; [|reflexivity].
    cbn. repeat split. apply without_specific_land.
Qed.

(** The protocol for a reservation. *)
Lemma CreateAddressSpaceReservationInternal_retry (K : Kernel) (s : kstate K)
    (vmar vmar_base page_size address : Z) (placement : PlacementMode)
    (size alignment : Z) (max_permission : MemoryPermission)
    (o : outcome reply) (s' : kstate K) (tr : list event)
    (c1 : syscall) (r1 : reply) (rest : list event) :
  run K (CreateAddressSpaceReservationInternal vmar vmar_base page_size
           address placement size alignment max_permission) s = (o, s', tr) ->
  placements tr = (c1, r1) :: rest ->
  (r_status r1 = ZX_OK -> rest = [] /\ o = Returned r1) /\
  (r_status r1 <> ZX_OK ->
   match placement with
   | kUseHint =>
       exists c2 r2, rest = [(c2, r2)] /\ retry_of c1 c2 /\ o = Returned r2
   | kAnywhere | kFixed => rest = [] /\ o = Returned r1
   end).
Proof.
  intros Hrun Hp. apply run_triple in Hrun as [Ho Htr].
  pose proof (CreateAddressSpaceReservationInternal_run K s vmar vmar_base
                page_size address placement size alignment max_permission)
    as Hshape.
  rewrite Ho, Htr in Hshape. clear Ho Htr.
  destruct Hshape as [why | q1 Hq1 | q1 q2 Hq1 Hmode];
    cbn in Hp; try discriminate Hp.
  - injection Hp as <- <- <-. split.
    + intros _. split; reflexivity.
    + intro Hko. destruct Hq1 as [Hok|Hmode]; [contradiction|].
      destruct placement; [congruence| |]; split; reflexivity.
  - injection Hp as <- <- <-. subst placement.
    split; [intro; contradiction|].
    intros _. eexists _, q2.
    split; [reflexivity|]. split; [|reflexivity].
    cbn. repeat split. apply without_specific_land.
Qed.


(** C1.  Whatever the kernel does: when the first placement request of a
    committed allocation or of a reservation is refused, then in [kUseHint]
    mode exactly one more request follows, which is the first one without
    [ZX_VM_SPECIFIC] (offset [0], every other option bit, the address space,
    the memory object and the size unchanged), and its reply decides the
    result; in [kFixed] and [kAnywhere] mode no request follows and the
    operation fails (a null address, resp. the refusing status).  When the
    first request is accepted no second one is made. *)
Theorem placement_retry_protocol (K : Kernel) (s : kstate K) (g : Globals)
    (vmar vmar_base page_size address : Z) (placement : PlacementMode)
    (size alignment : Z) (access max_permission : MemoryPermission) :
  (forall o s' tr c1 r1 rest,
     run K (AllocateInternal g vmar vmar_base page_size address placement
              size alignment access) s = (o, s', tr) ->
     placements tr = (c1, r1) :: rest ->
     (r_status r1 = ZX_OK -> rest = [] /\ o = Returned (r_val r1)) /\
     (r_status r1 <> ZX_OK ->
      match placement with
      | kUseHint =>
          exists c2 r2, rest = [(c2, r2)] /\ retry_of c1 c2 /\
            o = Returned (if r_status r2 =? ZX_OK then r_val r2 else nullptr)
      | kAnywhere | kFixed => rest = [] /\ o = Returned nullptr
      end)) /\
  (forall o s' tr c1 r1 rest,
     run K (CreateAddressSpaceReservationInternal vmar vmar_base page_size
              address placement size alignment max_permission) s
       = (o, s', tr) ->
     placements tr = (c1, r1) :: rest ->
     (r_status r1 = ZX_OK -> rest = [] /\ o = Returned r1) /\
     (r_status r1 <> ZX_OK ->
      match placement with
      | kUseHint =>
          exists c2 r2, rest = [(c2, r2)] /\ retry_of c1 c2 /\ o = Returned r2
      | kAnywhere | kFixed => rest = [] /\ o = Returned r1
      end)).
Proof.
  split; intros o s' tr c1 r1 rest Hrun Hp.
  - exact (AllocateInternal_retry K s g vmar vmar_base page_size address
             placement size alignment access o s' tr c1 r1 rest Hrun Hp).
  - exact (CreateAddressSpaceReservationInternal_retry K s vmar vmar_base
             page_size address placement size alignment max_permission
             o s' tr c1 r1 rest Hrun Hp).
Qed.

End Placement.

Lemma placement_retry_protocol_witness :
  exists c2 r2,
    [(zx_vmar_map 1 201326595 0 6 0 8192, mkReply 0 5242880 0)] = [(c2, r2)] /\
    retry_of (P := zircon_release)
      (zx_vmar_map 1 201326611 1048576 6 0 8192) c2 /\
    Returned 5242880 =
    Returned (if r_status r2 =? 0 then r_val r2 else nullptr).
Proof.
  destruct (placement_retry_protocol (P := zircon_release) scripted
              hint_refused demo_globals 1 2097152 4096 3145728 kUseHint
              8192 4096 kReadWrite kNoAccess) as [Halloc _].
  refine (proj2 (Halloc (Returned 5242880) [] _
                   (zx_vmar_map 1 201326611 1048576 6 0 8192)
                   (mkReply (-1) 0 0) _ _ _) _).
  - vm_compute. reflexivity.
  - reflexivity.
  - vm_compute. discriminate.
Defined.

(** ** The memory object *)

Section MemoryObject.
Context {P : Platform}.

(** The allocation primitive upgrades every memory object it creates. *)
Lemma AllocateInternal_upgrade (K : Kernel) (s : kstate K)
    (g : Globals) (vmar vmar_base page_size address : Z)
    (placement : PlacementMode) (size alignment : Z)
    (access : MemoryPermission) (o : outcome Z) (s' : kstate K)
    (tr : list event) (r0 : reply) (rest : list event) :
  run K (AllocateInternal g vmar vmar_base page_size address placement size
           alignment access) s = (o, s', tr) ->
  tr = (zx_vmo_create size 0, r0) :: rest ->
  r_status r0 = ZX_OK ->
  exists r1 r2 rest',
    tr = vmo_prologue g size r0 r1 r2 ++ rest' /\
    (r_status r2 <> ZX_OK -> rest' = [] /\ o = Returned nullptr).
Proof.
  intros Hrun Htr Hok. apply run_triple in Hrun as [Ho Hsnd].
  pose proof (AllocateInternal_run K s g vmar vmar_base page_size address
                placement size alignment access) as Hshape.
  rewrite Ho, Hsnd in Hshape. clear Ho Hsnd.
  destruct Hshape as [why | why q0 q1 q2 Hq0 Hq2 | q0 Hq0
                      | q0 q1 q2 Hq0 Hq2 | q0 q1 q2 q3 Hq0 Hq2 Hq3
                      | q0 q1 q2 q3 q4 Hq0 Hq2 Hq3 Hmode].
  - discriminate Htr.
  - (* stopped by a check that comes after the upgrade has succeeded *)
    injection Htr as <- <-. exists q1, q2, []. split; [reflexivity|].
    intro Hko. contradiction.
  - injection Htr as <- <-. contradiction.
  - injection Htr as <- <-. exists q1, q2, []. split; [reflexivity|].
    intros _. split; reflexivity.
  - injection Htr as <- <-. eexists q1, q2, _. split; [reflexivity|].
    intro Hko. contradiction.
  - injection Htr as <- <-. eexists q1, q2, _. split; [reflexivity|].
    intro Hko. contradiction.
Qed.

End MemoryObject.

(** ** Allocation inside a reservation *)

(** Every reply in a trace is the kernel's answer to that call in some
    state. *)
Lemma run_events {A : Type} (K : Kernel) (p : zx A) (s : kstate K)
    (c : syscall) (r : reply) :
  In (c, r) (snd (run K p s)) -> exists s0, fst (ksys K c s0) = r.
Proof.
  revert s. induction p as [a|why|c0 k IH]; intro s; simpl.
  - intros [].
  - intros [].
  - destruct (ksys K c0 s) as [r0 s1] eqn:E.
    specialize (IH r0 s1).
    destruct (run K (k r0) s1) as [[o s2] tr]. simpl in *.
    intros [Hhd|Htl].
    + injection Hhd as <- <-. exists s. rewrite E. reflexivity.
    + apply IH, Htl.
Qed.

Lemma land_lor_same (a b : Z) : Z.land (Z.lor a b) b = b.
Proof.
  apply Z.bits_inj'. intros n _.
  rewrite Z.land_spec, Z.lor_spec.
  destruct (Z.testbit a n), (Z.testbit b n); reflexivity.
Qed.

Section InReservation.
Context {P : Platform}.

(** A run of [AddressSpaceReservation::Allocate] is a run of the allocation
    primitive in [kFixed] mode between two [DCHECK]s. *)
Lemma AddressSpaceReservation_Allocate_run (K : Kernel) (s : kstate K)
    (g : Globals) (this : AddressSpaceReservation) (address size : Z)
    (access : MemoryPermission) (o : outcome bool) (s' : kstate K)
    (tr : list event) :
  run K (AddressSpaceReservation_Allocate g this address size access) s
    = (o, s', tr) ->
  (tr = [] /\ exists why, o = Aborted why) \/
  exists oa,
    run K (AllocateInternal g (vmar_ this) (base_ this) AllocatePageSize
             address kFixed size AllocatePageSize access) s = (oa, s', tr) /\
    match oa with
    | Aborted why => o = Aborted why
    | Returned allocation =>
        if DEBUG && negb ((allocation =? nullptr) || (allocation =? address))
        then exists why, o = Aborted why
        else o = Returned (negb (allocation =? nullptr))
    end.
Proof.
  unfold AddressSpaceReservation_Allocate.
  rewrite run_DCHECK.
  destruct (DEBUG && negb (Contains this address size)).
  - intro H. injection H as <- <- <-. left. split; [reflexivity|].
    eexists. reflexivity.
  - rewrite run_bind.
    destruct (run K (AllocateInternal _ _ _ _ _ _ _ _ _) s)
      as [[[allocation|why] s1] t1].
    + rewrite run_DCHECK.
      destruct (DEBUG
                && negb ((allocation =? nullptr) || (allocation =? address)))
        eqn:Echeck.
      * rewrite app_nil_r. intro H. injection H as <- <- <-. right.
        exists (Returned allocation). split; [reflexivity|].
        rewrite Echeck. eexists. reflexivity.
      * cbn. rewrite app_nil_r. intro H. injection H as <- <- <-. right.
        exists (Returned allocation). split; [reflexivity|].
        rewrite Echeck. reflexivity.
    + intro H. injection H as <- <- <-. right.
      exists (Aborted why). split; reflexivity.
Qed.

(** C4.  For an address range inside the reservation:
    [AddressSpaceReservation::Allocate] makes at most one placement request
    (the [kFixed] mode of the allocation primitive has no fallback), and
    whenever it returns [true] that request is a [vmar::map] with
    [ZX_VM_SPECIFIC] at the offset of the requested address from the
    reservation's base, which the kernel accepted, and the address of the
    mapping is the requested one.  The equality of the addresses is what the
    final [DCHECK] tests on a [DEBUG] build; on any build it follows from
    the kernel's contract for [ZX_VM_SPECIFIC]. *)
Theorem AddressSpaceReservation_Allocate_fixed (K : Kernel) (s : kstate K)
    (g : Globals) (this : AddressSpaceReservation) (address size : Z)
    (access : MemoryPermission) (o : outcome bool) (s' : kstate K)
    (tr : list event) :
  Contains this address size = true ->
  0 <= base_ this -> address < 2 ^ 64 ->
  DEBUG = true \/ honours_specific K (vmar_ this) (base_ this) ->
  run K (AddressSpaceReservation_Allocate g this address size access) s
    = (o, s', tr) ->
  (List.length (placements tr) <= 1)%nat /\
  (o = Returned true ->
   exists r0 r1 r2 r3,
     tr = vmo_prologue g size r0 r1 r2 ++
          [(zx_vmar_map (vmar_ this)
              (Z.lor (Z.lor (GetProtectionFromMemoryPermission access)
                            (GetAlignmentOptionFromAlignment AllocatePageSize))
                     ZX_VM_SPECIFIC)
              (address - base_ this) (r_val r2) 0 size, r3)] /\
     r_status r3 = ZX_OK /\ r_val r3 = address).
Proof.
  intros Hin Hbase Haddr Hwhy Hrun.
  apply andb_true_iff in Hin as [Hlow _]. apply Z.leb_le in Hlow.
  assert (Hoff : wrap64 (address - base_ this) = address - base_ this)
    by (apply Z.mod_small; lia).
  apply AddressSpaceReservation_Allocate_run in Hrun
    as [[-> [why ->]] | (oa & Hrun & Hres)].
  { split; [simpl; lia | discriminate]. }
  pose proof (run_events K
                (AllocateInternal g (vmar_ this) (base_ this)
                   AllocatePageSize address kFixed size AllocatePageSize
                   access) s) as Hev.
  apply run_triple in Hrun as [Ho Htr].
  pose proof (AllocateInternal_run K s g (vmar_ this) (base_ this)
                AllocatePageSize address kFixed size AllocatePageSize access)
    as Hshape.
  rewrite Htr in Hev. rewrite Ho, Htr in Hshape. clear Ho Htr.
  destruct Hshape as [why | why q0 q1 q2 Hq0 Hq2 | q0 Hq0
                      | q0 q1 q2 Hq0 Hq2 | q0 q1 q2 q3 Hq0 Hq2 Hq3
                      | q0 q1 q2 q3 q4 Hq0 Hq2 Hq3 Hmode];
    try discriminate Hmode.
  1-4: split; [simpl; lia|]; intros ->;
       try discriminate Hres;
       cbn in Hres; destruct DEBUG; cbn in Hres; discriminate Hres.
  split; [simpl; lia|]. intros ->.
  destruct (r_status q3 =? ZX_OK) eqn:Hok.
  2: { cbn in Hres; destruct DEBUG; cbn in Hres; discriminate Hres. }
  apply Z.eqb_eq in Hok.
  exists q0, q1, q2, q3. cbn [first_options first_offset]. rewrite Hoff.
  split; [reflexivity|]. split; [exact Hok|].
  destruct Hwhy as [Hdebug|Hkernel].
  - rewrite Hdebug in Hres. cbn [andb] in Hres.
    destruct ((r_val q3 =? nullptr) || (r_val q3 =? address)) eqn:Hcheck;
      cbn [negb] in Hres; [|destruct Hres; discriminate].
    destruct (r_val q3 =? nullptr) eqn:Hnull; [discriminate Hres|].
    cbn [orb] in Hcheck. apply Z.eqb_eq, Hcheck.
  - edestruct Hev as [s0 Hs0].
    { apply in_or_app. right. left. reflexivity. }
    pose proof (Hkernel s0 (first_options kFixed options)
                  (first_offset kFixed (base_ this) address) (r_val q2) 0
                  size) as Hspec.
    cbv zeta in Hspec. rewrite Hs0 in Hspec.
    specialize (Hspec Hok (land_lor_same _ _)).
    cbn [first_offset] in Hspec. rewrite Hoff in Hspec. lia.
Qed.

End InReservation.

Lemma obliging_honours_specific (vmar vmar_base : Z) :
  honours_specific (P := zircon_release) (obliging vmar_base) vmar vmar_base.
Proof. intros s options vmar_offset vmo vmo_offset len r _ _. reflexivity. Qed.

Lemma AddressSpaceReservation_Allocate_fixed_witness :
  (List.length (placements (snd demo_fixed)) <= 1)%nat /\
  exists r0 r1 r2 r3,
    snd demo_fixed =
    vmo_prologue (P := zircon_release) demo_globals 4096 r0 r1 r2 ++
    [(zx_vmar_map 7 201326611 (4202496 - 4194304) (r_val r2) 0 4096, r3)] /\
    r_status r3 = 0 /\ r_val r3 = 4202496.
Proof.
  destruct (AddressSpaceReservation_Allocate_fixed (P := zircon_release)
              (obliging 4194304) tt demo_globals demo_reservation 4202496
              4096 kReadWrite (fst (fst demo_fixed)) (snd (fst demo_fixed))
              (snd demo_fixed)) as [Hone Hplaced].
  - reflexivity.
  - vm_compute. discriminate.
  - reflexivity.
  - right. apply obliging_honours_specific.
  - vm_compute. reflexivity.
  - split; [exact Hone|]. apply Hplaced. reflexivity.
Defined.

(** ** The executable upgrade, at every entry point *)

Section Upgrade.
Context {P : Platform}.

(** C2.  Whatever the access level asked for, in the allocation primitive and
    in the two entry points built on it ([OS::Allocate] and
    [AddressSpaceReservation::Allocate]): once [zx::vmo::create] has given a
    memory object, the run goes on to name it and to call
    [replace_as_executable] on it with the process-wide capability; and when
    that call is refused nothing else is called and the allocation fails
    ([nullptr], resp. [false]). *)
Theorem executable_upgrade_unconditional (K : Kernel) (s : kstate K)
    (g : Globals) (this : AddressSpaceReservation)
    (vmar vmar_base page_size address : Z) (placement : PlacementMode)
    (size alignment : Z) (access : MemoryPermission)
    (r0 : reply) (rest : list event) :
  r_status r0 = ZX_OK ->
  (forall o s' tr,
     run K (AllocateInternal g vmar vmar_base page_size address placement
              size alignment access) s = (o, s', tr) ->
     tr = (zx_vmo_create size 0, r0) :: rest ->
     exists r1 r2 rest',
       tr = vmo_prologue g size r0 r1 r2 ++ rest' /\
       (r_status r2 <> ZX_OK -> rest' = [] /\ o = Returned nullptr)) /\
  (forall o s' tr,
     run K (OS_Allocate g address size alignment access) s = (o, s', tr) ->
     tr = (zx_vmo_create size 0, r0) :: rest ->
     exists r1 r2 rest',
       tr = vmo_prologue g size r0 r1 r2 ++ rest' /\
       (r_status r2 <> ZX_OK -> rest' = [] /\ o = Returned nullptr)) /\
  (forall o s' tr,
     run K (AddressSpaceReservation_Allocate g this address size access) s
       = (o, s', tr) ->
     tr = (zx_vmo_create size 0, r0) :: rest ->
     exists r1 r2 rest',
       tr = vmo_prologue g size r0 r1 r2 ++ rest' /\
       (r_status r2 <> ZX_OK -> rest' = [] /\ o = Returned false)).
Proof.
  intro Hok. split; [|split]; intros o s' tr Hrun Htr.
  - exact (AllocateInternal_upgrade K s g vmar vmar_base page_size address
             placement size alignment access o s' tr r0 rest Hrun Htr Hok).
  - unfold OS_Allocate in Hrun.
    exact (AllocateInternal_upgrade K s g _ _ _ address _ size alignment
             access o s' tr r0 rest Hrun Htr Hok).
  - apply AddressSpaceReservation_Allocate_run in Hrun
      as [[-> _] | (oa & Hrun & Hres)]; [discriminate Htr|].
    destruct (AllocateInternal_upgrade K s g _ _ _ address _ size _ access
                oa s' tr r0 rest Hrun Htr Hok)
      as (r1 & r2 & rest' & Hshape & Hfail).
    exists r1, r2, rest'. split; [exact Hshape|].
    intro Hko. destruct (Hfail Hko) as [-> ->]. split; [reflexivity|].
    cbn in Hres. destruct DEBUG; exact Hres.
Qed.

End Upgrade.

Lemma executable_upgrade_unconditional_witness :
  snd demo_upgrade_refused
  = vmo_prologue (P := zircon_release) demo_globals 8192 (mkReply 0 5 0)
      (mkReply 0 0 0) (mkReply (-30) 0 0) /\
  fst (fst demo_upgrade_refused) = Returned nullptr.
Proof.
  destruct (proj1 (executable_upgrade_unconditional (P := zircon_release)
                     scripted upgrade_refused demo_globals demo_reservation
                     1 2097152 4096 3145728 kUseHint 8192 4096 kRead
                     (mkReply 0 5 0) (tl (snd demo_upgrade_refused))
                     eq_refl)
              (fst (fst demo_upgrade_refused))
              (snd (fst demo_upgrade_refused)) (snd demo_upgrade_refused))
    as (r1 & r2 & rest' & Htr & Hfail).
  - vm_compute. reflexivity.
  - vm_compute. reflexivity.
  - split; [vm_compute; reflexivity|].
    vm_compute in Htr. injection Htr as <- <- <-.
    apply Hfail. vm_compute. discriminate.
Defined.

(** ** Decommitting pages *)

Section Decommit.
Context {P : Platform}.

(** With the preconditions met, the two steps in full. *)
Lemma DecommitPages_steps (K : Kernel) (s : kstate K)
    (this : AddressSpaceReservation) (address size : Z) :
  address mod CommitPageSize = 0 ->
  size mod CommitPageSize = 0 ->
  (DEBUG = true -> Contains this address size = true) ->
  two_step_decommit K s root_self address size
    (OS_DecommitPages address size)
    (OS_SetPermissions address size kNoAccess)
    (OS_DiscardSystemPages address size) /\
  two_step_decommit K s (vmar_ this) address size
    (AddressSpaceReservation_DecommitPages this address size)
    (AddressSpaceReservation_SetPermissions this address size kNoAccess)
    (AddressSpaceReservation_DiscardSystemPages this address size).
Proof.
  intros Ha Hs Hin.
  assert (Ea : (0 =? address mod CommitPageSize) = true)
    by (rewrite Ha; reflexivity).
  assert (Es : (0 =? size mod CommitPageSize) = true)
    by (rewrite Hs; reflexivity).
  assert (Ec : DEBUG && negb (Contains this address size) = false).
  { destruct DEBUG; [|reflexivity]. rewrite Hin; reflexivity. }
  unfold two_step_decommit, OS_DecommitPages,
    AddressSpaceReservation_DecommitPages, and_then, OS_SetPermissions,
    AddressSpaceReservation_SetPermissions, OS_DiscardSystemPages,
    AddressSpaceReservation_DiscardSystemPages, SetPermissionsInternal,
    DiscardSystemPagesInternal.
  cbn [GetProtectionFromMemoryPermission].
  split.
  - destruct (ksys K (zx_vmar_protect root_self 0 address size) s)
      as [r1 s1] eqn:E1.
    destruct (ksys K (zx_vmar_op_range root_self ZX_VMO_OP_DECOMMIT address
                        size) s1) as [r2 s2] eqn:E2.
    repeat (rewrite ?run_bind_assoc, ?run_DCHECK, ?Ea, ?Es, ?Ec,
              ?andb_false_r, ?run_call, ?E1, ?E2; cbn [negb run bind]).
    destruct (r_status r1 =? ZX_OK);
      repeat (rewrite ?run_bind_assoc, ?run_DCHECK, ?Ea, ?Es, ?Ec,
                ?andb_false_r, ?run_call, ?E1, ?E2; cbn [negb run bind]);
      repeat split.
  - destruct (ksys K (zx_vmar_protect (vmar_ this) 0 address size) s)
      as [r1 s1] eqn:E1.
    destruct (ksys K (zx_vmar_op_range (vmar_ this) ZX_VMO_OP_DECOMMIT address
                        size) s1) as [r2 s2] eqn:E2.
    repeat (rewrite ?run_bind_assoc, ?run_DCHECK, ?Ea, ?Es, ?Ec,
              ?andb_false_r, ?run_call, ?E1, ?E2; cbn [negb run bind]).
    destruct (r_status r1 =? ZX_OK);
      repeat (rewrite ?run_bind_assoc, ?run_DCHECK, ?Ea, ?Es, ?Ec,
                ?andb_false_r, ?run_call, ?E1, ?E2; cbn [negb run bind]);
      repeat split.
Qed.

(** C3.  [DecommitPages], on the root as on a reservation, runs as
    [SetPermissions] with [kNoAccess] followed, when that returned [true], by
    [DiscardSystemPages], for every address and size.  For an address and a
    size that are multiples of the commit page size (and, where [DCHECK]s
    are compiled in, a range inside the reservation) the run is: one
    [vmar::protect] with the empty bitmask, then, if it was granted, one
    [vmar::op_range] that decommits; the result is [true] exactly when both
    were granted; and when the second is refused after the first was
    granted the run ends there, with no further call that would undo the
    protection. *)
Theorem DecommitPages_two_steps (K : Kernel) (s : kstate K)
    (this : AddressSpaceReservation) (address size : Z) :
  run K (OS_DecommitPages address size) s
  = run K (and_then (OS_SetPermissions address size kNoAccess)
                    (OS_DiscardSystemPages address size)) s /\
  run K (AddressSpaceReservation_DecommitPages this address size) s
  = run K (and_then
             (AddressSpaceReservation_SetPermissions this address size
                kNoAccess)
             (AddressSpaceReservation_DiscardSystemPages this address size))
      s /\
  (address mod CommitPageSize = 0 ->
   size mod CommitPageSize = 0 ->
   (DEBUG = true -> Contains this address size = true) ->
   two_step_decommit K s root_self address size
     (OS_DecommitPages address size)
     (OS_SetPermissions address size kNoAccess)
     (OS_DiscardSystemPages address size) /\
   two_step_decommit K s (vmar_ this) address size
     (AddressSpaceReservation_DecommitPages this address size)
     (AddressSpaceReservation_SetPermissions this address size kNoAccess)
     (AddressSpaceReservation_DiscardSystemPages this address size)).
Proof.
  split; [reflexivity|]. split; [|apply DecommitPages_steps].
  unfold AddressSpaceReservation_DecommitPages, and_then,
    AddressSpaceReservation_SetPermissions.
  rewrite run_DCHECK, !run_bind_assoc, !run_DCHECK.
  destruct (DEBUG && negb (Contains this address size)); reflexivity.
Qed.

End Decommit.

Lemma DecommitPages_two_steps_witness :
  two_step_decommit (P := zircon_debug) scripted discard_refused 1 4194304 8192
    (OS_DecommitPages (P := zircon_debug) 4194304 8192)
    (OS_SetPermissions (P := zircon_debug) 4194304 8192 kNoAccess)
    (OS_DiscardSystemPages (P := zircon_debug) 4194304 8192) /\
  two_step_decommit (P := zircon_debug) scripted discard_refused 7 4194304 8192
    (AddressSpaceReservation_DecommitPages (P := zircon_debug)
       demo_reservation 4194304 8192)
    (AddressSpaceReservation_SetPermissions (P := zircon_debug)
       demo_reservation 4194304 8192 kNoAccess)
    (AddressSpaceReservation_DiscardSystemPages (P := zircon_debug)
       demo_reservation 4194304 8192).
Proof.
  apply (proj2 (proj2 (DecommitPages_two_steps (P := zircon_debug) scripted
                         discard_refused demo_reservation 4194304 8192))).
  - reflexivity.
  - reflexivity.
  - intros _. reflexivity.
Defined.

(** ** The maximum permission of a reservation *)

Lemma testbit_below_32 (x n : Z) :
  0 <= x < 2 ^ 32 -> Z.testbit x n = true -> n < 32.
Proof.
  intros Hx Hbit. destruct (Z.ltb_spec n 32) as [Hlt|Hge]; [exact Hlt|].
  exfalso. destruct (Z.eq_dec x 0) as [->|Hnz].
  - rewrite Z.bits_0 in Hbit. discriminate Hbit.
  - rewrite Z.bits_above_log2 in Hbit; [discriminate Hbit|lia|].
    assert (Z.log2 x < 32) by (apply Z.log2_lt_pow2; lia). lia.
Qed.

Section MaxPermission.
Context {P : Platform}.

Lemma keeps_creation_bits_first (align : Z) :
  Z.land (Z.lor can_map_everything align) can_map_everything
  = can_map_everything.
Proof.
  apply Z.bits_inj'. intros n _.
  rewrite Z.land_spec, Z.lor_spec.
  destruct (Z.testbit can_map_everything n), (Z.testbit align n); reflexivity.
Qed.

Lemma keeps_creation_bits_specific (align : Z) :
  Z.land (Z.lor (Z.lor can_map_everything align) ZX_VM_SPECIFIC)
         can_map_everything
  = can_map_everything.
Proof.
  apply Z.bits_inj'. intros n _.
  rewrite Z.land_spec, !Z.lor_spec.
  destruct (Z.testbit can_map_everything n), (Z.testbit align n),
    (Z.testbit ZX_VM_SPECIFIC n); reflexivity.
Qed.

Lemma keeps_creation_bits_retry (align : Z) :
  0 <= can_map_everything < 2 ^ 32 ->
  Z.land can_map_everything ZX_VM_SPECIFIC = 0 ->
  Z.land (Z.land (Z.lor (Z.lor can_map_everything align) ZX_VM_SPECIFIC)
                 (not32 ZX_VM_SPECIFIC))
         can_map_everything
  = can_map_everything.
Proof.
  intros Hrange Hdisjoint. apply Z.bits_inj'. intros n Hn.
  assert (Hbit : Z.testbit (Z.land can_map_everything ZX_VM_SPECIFIC) n
                 = false) by (rewrite Hdisjoint; apply Z.bits_0).
  rewrite Z.land_spec in Hbit.
  rewrite !Z.land_spec, !Z.lor_spec.
  destruct (Z.testbit can_map_everything n) eqn:Hcan;
    [|rewrite andb_false_r; reflexivity].
  apply testbit_below_32 in Hcan; [|exact Hrange].
  unfold not32, wrap32.
  rewrite Z.mod_pow2_bits_low, Z.lnot_spec by lia.
  cbn [andb] in Hbit. rewrite Hbit. reflexivity.
Qed.

(** C5.  The maximum permission is not looked at: the reservation primitive,
    the root-level [CreateAddressSpaceReservation] and [CreateSubReservation]
    are the same programs for any two values of it, so they make the same
    calls and give the same results.  Every [vmar::allocate] they make is on
    the given address space with the given size, and, [ZX_VM_SPECIFIC] not
    being one of the creation bits, its options contain all of
    [ZX_VM_CAN_MAP_READ], [ZX_VM_CAN_MAP_WRITE], [ZX_VM_CAN_MAP_EXECUTE] and
    [ZX_VM_CAN_MAP_SPECIFIC]. *)
Theorem max_permission_not_narrowed (K : Kernel) (s : kstate K) (g : Globals)
    (this : AddressSpaceReservation)
    (vmar vmar_base page_size address : Z) (placement : PlacementMode)
    (size alignment : Z) (mp1 mp2 : MemoryPermission) :
  0 <= can_map_everything < 2 ^ 32 ->
  Z.land can_map_everything ZX_VM_SPECIFIC = 0 ->
  CreateAddressSpaceReservationInternal vmar vmar_base page_size address
    placement size alignment mp1
  = CreateAddressSpaceReservationInternal vmar vmar_base page_size address
      placement size alignment mp2 /\
  OS_CreateAddressSpaceReservation g address size alignment mp1
  = OS_CreateAddressSpaceReservation g address size alignment mp2 /\
  AddressSpaceReservation_CreateSubReservation this address size mp1
  = AddressSpaceReservation_CreateSubReservation this address size mp2 /\
  run K (CreateAddressSpaceReservationInternal vmar vmar_base page_size
           address placement size alignment mp1) s
  = run K (CreateAddressSpaceReservationInternal vmar vmar_base page_size
             address placement size alignment mp2) s /\
  (forall c r,
     In (c, r)
        (snd (run K (CreateAddressSpaceReservationInternal vmar vmar_base
                       page_size address placement size alignment mp1) s)) ->
     exists options offset,
       c = zx_vmar_allocate vmar options offset size /\
       Z.land options can_map_everything = can_map_everything).
Proof.
  intros Hrange Hdisjoint. repeat split.
  intros c r Hin.
  pose proof (CreateAddressSpaceReservationInternal_run K s vmar vmar_base
                page_size address placement size alignment mp1) as Hshape.
  destruct (run K _ s) as [[o s'] tr]. cbn [fst snd] in Hshape, Hin.
  destruct Hshape as [why | q1 Hq1 | q1 q2 Hq1 Hmode]; cbn in Hin.
  - destruct Hin.
  - destruct Hin as [Hin|[]]. injection Hin as <- <-.
    eexists _, _. split; [reflexivity|].
    subst options. destruct placement; cbn [first_options];
      auto using keeps_creation_bits_first, keeps_creation_bits_specific.
  - subst options.
    destruct Hin as [Hin|[Hin|[]]]; injection Hin as <- <-;
      (eexists _, _; split; [reflexivity|]);
      auto using keeps_creation_bits_specific, keeps_creation_bits_retry.
Qed.

End MaxPermission.

Lemma max_permission_not_narrowed_witness :
  CreateAddressSpaceReservationInternal (P := zircon_release) 1 2097152 4096
    3145728 kUseHint 8192 4096 kNoAccess
  = CreateAddressSpaceReservationInternal (P := zircon_release) 1 2097152 4096
      3145728 kUseHint 8192 4096 kReadWriteExecute /\
  OS_CreateAddressSpaceReservation (P := zircon_release) demo_globals 3145728
    8192 4096 kNoAccess
  = OS_CreateAddressSpaceReservation (P := zircon_release) demo_globals
      3145728 8192 4096 kReadWriteExecute /\
  AddressSpaceReservation_CreateSubReservation (P := zircon_release)
    demo_reservation 3145728 8192 kNoAccess
  = AddressSpaceReservation_CreateSubReservation (P := zircon_release)
      demo_reservation 3145728 8192 kReadWriteExecute /\
  run scripted
    (CreateAddressSpaceReservationInternal (P := zircon_release) 1 2097152
       4096 3145728 kUseHint 8192 4096 kNoAccess) [refused; mkReply 0 7 5242880]
  = run scripted
      (CreateAddressSpaceReservationInternal (P := zircon_release) 1 2097152
         4096 3145728 kUseHint 8192 4096 kReadWriteExecute)
      [refused; mkReply 0 7 5242880] /\
  (forall c r,
     In (c, r)
        (snd (run scripted
                (CreateAddressSpaceReservationInternal (P := zircon_release)
                   1 2097152 4096 3145728 kUseHint 8192 4096 kNoAccess)
                [refused; mkReply 0 7 5242880])) ->
     exists options offset,
       c = zx_vmar_allocate 1 options offset 8192 /\
       Z.land options 960 = 960).
Proof.
  apply (max_permission_not_narrowed (P := zircon_release) scripted
           [refused; mkReply 0 7 5242880] demo_globals demo_reservation
           1 2097152 4096 3145728 kUseHint 8192 4096 kNoAccess
           kReadWriteExecute).
  - vm_compute. split; [discriminate | reflexivity].
  - reflexivity.
Defined.

(** ** The root-level entry points *)

Section Root.
Context {P : Platform}.

(** A run of [OS::CreateAddressSpaceReservation] is a [DCHECK], a run of the
    reservation primitive in the mode the hint selects, and the wrapping of
    its result. *)
Lemma OS_CreateAddressSpaceReservation_run (K : Kernel) (s : kstate K)
    (g : Globals) (hint size alignment : Z) (max_permission : MemoryPermission)
    (o : outcome (option AddressSpaceReservation)) (s' : kstate K)
    (tr : list event) :
  run K (OS_CreateAddressSpaceReservation g hint size alignment
           max_permission) s = (o, s', tr) ->
  (tr = [] /\ exists why, o = Aborted why) \/
  exists oi,
    run K (CreateAddressSpaceReservationInternal root_self
             (g_root_vmar_base g) AllocatePageSize hint
             (if negb (hint =? nullptr) then kUseHint else kAnywhere)
             size alignment max_permission) s = (oi, s', tr) /\
    o = match oi with
        | Aborted why => Aborted why
        | Returned status =>
            Returned
              (if r_status status =? ZX_OK
               then Some (mkReservation (r_val2 status) size (r_val status))
               else None)
        end.
Proof.
  unfold OS_CreateAddressSpaceReservation.
  rewrite run_DCHECK.
  destruct (DEBUG && negb (0 =? hint mod alignment)).
  - intro H. injection H as <- <- <-. left. split; [reflexivity|].
    eexists. reflexivity.
  - rewrite run_bind.
    destruct (run K (CreateAddressSpaceReservationInternal _ _ _ _ _ _ _ _) s)
      as [[[status|why] s1] t1].
    + destruct (r_status status =? ZX_OK) eqn:Hok; cbn [negb run];
        rewrite app_nil_r; intro H; injection H as <- <- <-; right;
        exists (Returned status); rewrite Hok; split; reflexivity.
    + intro H. injection H as <- <- <-. right.
      exists (Aborted why). split; reflexivity.
Qed.

(** C9.  The root-level [Allocate] and [CreateAddressSpaceReservation] run
    their primitive in [kAnywhere] mode for a null address and in [kUseHint]
    mode for any other, never in [kFixed] mode.  So when the kernel refuses
    to place a root-level request at its hint, the request is made once more
    for the kernel to choose the address, and the reply to that second
    request is the result. *)
Theorem root_requests_never_fixed (K : Kernel) (s : kstate K) (g : Globals)
    (address size alignment : Z) (access max_permission : MemoryPermission) :
  let placement := if address =? nullptr then kAnywhere else kUseHint in
  placement <> kFixed /\
  OS_Allocate g address size alignment access
  = AllocateInternal g root_self (g_root_vmar_base g) AllocatePageSize
      address placement size alignment access /\
  OS_CreateAddressSpaceReservation g address size alignment max_permission
  = (DCHECK (0 =? address mod alignment) "hint % alignment" ;;
     status <- CreateAddressSpaceReservationInternal root_self
                 (g_root_vmar_base g) AllocatePageSize address placement size
                 alignment max_permission ;;
     if negb (r_status status =? ZX_OK) then Ret None
     else Ret (Some (mkReservation (r_val2 status) size (r_val status)))) /\
  (address <> nullptr ->
   (forall o s' tr c1 r1 rest,
      run K (OS_Allocate g address size alignment access) s = (o, s', tr) ->
      placements tr = (c1, r1) :: rest ->
      r_status r1 <> ZX_OK ->
      exists c2 r2, rest = [(c2, r2)] /\ retry_of c1 c2 /\
        o = Returned (if r_status r2 =? ZX_OK then r_val r2 else nullptr)) /\
   (forall o s' tr c1 r1 rest,
      run K (OS_CreateAddressSpaceReservation g address size alignment
               max_permission) s = (o, s', tr) ->
      placements tr = (c1, r1) :: rest ->
      r_status r1 <> ZX_OK ->
      exists c2 r2, rest = [(c2, r2)] /\ retry_of c1 c2 /\
        o = Returned
              (if r_status r2 =? ZX_OK
               then Some (mkReservation (r_val2 r2) size (r_val r2))
               else None))).
Proof.
  unfold OS_Allocate.
  cbv zeta. split; [destruct (address =? nullptr); discriminate|].
  split; [unfold OS_Allocate; destruct (address =? nullptr); reflexivity|].
  split; [unfold OS_CreateAddressSpaceReservation;
          destruct (address =? nullptr); reflexivity|].
  intro Hhint. apply Z.eqb_neq in Hhint.
  split; intros o s' tr c1 r1 rest Hrun Hp Hko.
  - rewrite Hhint in Hrun. cbn [negb] in Hrun.
    exact (proj2 (AllocateInternal_retry K s g _ _ _ _ kUseHint _ _ _ _ _ _
                    _ _ _ Hrun Hp) Hko).
  - apply OS_CreateAddressSpaceReservation_run in Hrun
      as [[-> _] | (oi & Hrun & ->)]; [discriminate Hp|].
    rewrite Hhint in Hrun. cbn [negb] in Hrun.
    destruct (proj2 (CreateAddressSpaceReservationInternal_retry K s _ _ _ _
                       kUseHint _ _ _ _ _ _ _ _ _ Hrun Hp) Hko)
      as (c2 & r2 & Hrest & Hretry & ->).
    exists c2, r2. repeat split; assumption.
Qed.

End Root.

Lemma root_requests_never_fixed_witness :
  exists c2 r2,
    [(zx_vmar_allocate 1 201327552 0 8192, mkReply 0 7 5242880)]
    = [(c2, r2)] /\
    retry_of (P := zircon_release)
      (zx_vmar_allocate 1 201327568 1048576 8192) c2 /\
    Returned (Some (mkReservation 5242880 8192 7))
    = Returned
        (if r_status r2 =? 0
         then Some (mkReservation (r_val2 r2) 8192 (r_val r2))
         else None).
Proof.
  destruct (root_requests_never_fixed (P := zircon_release) scripted
              [refused; mkReply 0 7 5242880] demo_globals 3145728 8192 4096
              kReadWrite kReadWrite) as (_ & _ & _ & Hfallback).
  destruct Hfallback as [_ Hreserve].
  - vm_compute. discriminate.
  - apply (Hreserve (Returned (Some (mkReservation 5242880 8192 7))) []
             [(zx_vmar_allocate 1 201327568 1048576 8192, refused);
              (zx_vmar_allocate 1 201327552 0 8192, mkReply 0 7 5242880)]
             (zx_vmar_allocate 1 201327568 1048576 8192) refused
             [(zx_vmar_allocate 1 201327552 0 8192, mkReply 0 7 5242880)]).
    + vm_compute. reflexivity.
    + reflexivity.
    + vm_compute. discriminate.
Defined.

(** ** CPU time *)

Lemma ceil_div_1000 (t : Z) : (t + 999) / 1000 = ceil_div t 1000.
Proof. unfold ceil_div. Z.to_euclidean_division_equations. lia. Qed.

Section UserTimeFacts.
Context {P : Platform}.

Lemma OS_GetUserTime_run (K : Kernel) (s : kstate K) (secs usecs : Z) :
  let query := zx_object_get_info thread_self ZX_INFO_THREAD_STATS in
  let (info, s1) := ksys K query s in
  run K (OS_GetUserTime secs usecs) s =
  (Returned
     (if r_status info =? ZX_OK then
        let micros :=
          wrap64 (wrap64 (wrap64 (r_val info) + 1000) - 1) / 1000 in
        mkUserTime 0 (wrap32 (micros / 1000000)) (wrap32 (micros mod 1000000))
      else mkUserTime (-1) secs usecs),
   s1, [(query, info)]).
Proof.
  unfold OS_GetUserTime. cbv zeta. rewrite run_call.
  destruct (ksys K _ s) as [info s1].
  destruct (r_status info =? ZX_OK); reflexivity.
Qed.

(** C8, as amended.  The query makes one call; it returns [-1] when that call
    is refused and [0] otherwise.  For a counter value [t] that is not
    negative, [*usecs] receives the remainder and [*secs] the quotient,
    reduced to 32 bits, of the division by a million of [t] rounded up to
    microseconds; [*secs] receives the quotient itself as long as [t] is at
    most 4294967295999999000 ns. *)
Theorem GetUserTime_conversion (K : Kernel) (s : kstate K) (secs usecs : Z)
    (o : outcome UserTime) (s' : kstate K) (tr : list event) :
  run K (OS_GetUserTime secs usecs) s = (o, s', tr) ->
  exists info,
    tr = [(zx_object_get_info thread_self ZX_INFO_THREAD_STATS, info)] /\
    (r_status info <> ZX_OK ->
     exists ut, o = Returned ut /\ ut_return ut = -1) /\
    (r_status info = ZX_OK -> 0 <= r_val info < 2 ^ 63 ->
     let micros := ceil_div (r_val info) 1000 in
     o = Returned (mkUserTime 0 (wrap32 (micros / 1000000))
                     (micros mod 1000000)) /\
     (r_val info <= 4294967295999999000 ->
      o = Returned (unbounded_user_time (r_val info)))).
Proof.
  intro Hrun. pose proof (OS_GetUserTime_run K s secs usecs) as Hspec.
  cbv zeta in Hspec.
  destruct (ksys K _ s) as [info s1]. rewrite Hspec in Hrun.
  injection Hrun as <- <- <-. exists info. split; [reflexivity|]. split.
  - intro Hko. apply Z.eqb_neq in Hko. rewrite Hko.
    eexists. split; reflexivity.
  - intros Hok Ht. apply Z.eqb_eq in Hok. rewrite Hok.
    change (2 ^ 63) with 9223372036854775808 in Ht.
    assert (Hm : wrap64 (wrap64 (wrap64 (r_val info) + 1000) - 1) / 1000
                 = ceil_div (r_val info) 1000).
    { unfold wrap64. change (2 ^ 64) with 18446744073709551616.
      rewrite (Z.mod_small (r_val info)) by lia.
      rewrite (Z.mod_small (r_val info + 1000)) by lia.
      rewrite Z.mod_small by lia.
      replace (r_val info + 1000 - 1) with (r_val info + 999) by lia.
      apply ceil_div_1000. }
    rewrite Hm.
    assert (Hu : wrap32 (ceil_div (r_val info) 1000 mod 1000000)
                 = ceil_div (r_val info) 1000 mod 1000000).
    { unfold wrap32. change (2 ^ 32) with 4294967296.
      apply Z.mod_small.
      pose proof (Z.mod_pos_bound (ceil_div (r_val info) 1000) 1000000).
      lia. }
    rewrite Hu. split; [reflexivity|].
    intro Hsmall. unfold unbounded_user_time. cbv zeta.
    f_equal. f_equal. unfold wrap32. change (2 ^ 32) with 4294967296.
    apply Z.mod_small. rewrite <- ceil_div_1000.
    Z.to_euclidean_division_equations. lia.
Qed.

(** C10.  When the thread statistics are refused the query returns [-1] and
    the two outputs hold what they held on entry; and it returns [-1] in no
    other case. *)
Theorem GetUserTime_failure_leaves_outputs (K : Kernel) (s : kstate K)
    (secs usecs : Z) (o : outcome UserTime) (s' : kstate K)
    (tr : list event) :
  run K (OS_GetUserTime secs usecs) s = (o, s', tr) ->
  exists info,
    tr = [(zx_object_get_info thread_self ZX_INFO_THREAD_STATS, info)] /\
    (r_status info <> ZX_OK -> o = Returned (mkUserTime (-1) secs usecs)) /\
    (forall ut, o = Returned ut -> ut_return ut = -1 ->
       r_status info <> ZX_OK /\ ut_secs ut = secs /\ ut_usecs ut = usecs).
Proof.
  intro Hrun. pose proof (OS_GetUserTime_run K s secs usecs) as Hspec.
  cbv zeta in Hspec.
  destruct (ksys K _ s) as [info s1]. rewrite Hspec in Hrun.
  injection Hrun as <- <- <-. exists info. split; [reflexivity|].
  destruct (r_status info =? ZX_OK) eqn:Hok.
  - apply Z.eqb_eq in Hok. split; [intro; contradiction|].
    intros ut Hut Hret. injection Hut as <-. discriminate Hret.
  - apply Z.eqb_neq in Hok. split; [reflexivity|].
    intros ut Hut _. injection Hut as <-. repeat split. exact Hok.
Qed.

End UserTimeFacts.

(** C8 as first stated takes no account of the 32 bits of [*secs]:
    after 4294967296 seconds of thread run time the query stores [0]
    seconds, where rounding up and splitting by a million give
    4294967296. *)
Lemma GetUserTime_seconds_truncated :
  fst (fst (run scripted (OS_GetUserTime (P := zircon_release) 7 7)
              [mkReply 0 4294967296000000000 0]))
  = Returned (mkUserTime 0 0 0) /\
  unbounded_user_time 4294967296000000000 = mkUserTime 0 4294967296 0 /\
  fst (fst (run scripted (OS_GetUserTime (P := zircon_release) 7 7)
              [mkReply 0 4294967296000000000 0]))
  <> Returned (unbounded_user_time 4294967296000000000).
Proof.
  split; [vm_compute; reflexivity|].
  split; [vm_compute; reflexivity|].
  vm_compute. discriminate.
Qed.

Lemma GetUserTime_conversion_witness :
  fst (fst (run scripted (OS_GetUserTime (P := zircon_release) 7 7)
              [mkReply 0 2000000001 0]))
  = Returned (mkUserTime 0 2 1) /\
  unbounded_user_time 2000000001 = mkUserTime 0 2 1.
Proof.
  destruct (GetUserTime_conversion (P := zircon_release) scripted
              [mkReply 0 2000000001 0] 7 7
              (fst (fst (run scripted (OS_GetUserTime (P := zircon_release) 7 7)
                           [mkReply 0 2000000001 0])))
              []
              [(zx_object_get_info 2 15, mkReply 0 2000000001 0)])
    as (info & Htr & _ & Hok).
  - vm_compute. reflexivity.
  - injection Htr as <-.
    destruct Hok as [_ Hsmall].
    + reflexivity.
    + vm_compute. split; [discriminate | reflexivity].
    + split; [|vm_compute; reflexivity].
      apply Hsmall. vm_compute. discriminate.
Defined.

Lemma GetUserTime_failure_leaves_outputs_witness :
  fst (fst (run scripted (OS_GetUserTime (P := zircon_release) 11 22)
              [refused]))
  = Returned (mkUserTime (-1) 11 22).
Proof.
  destruct (GetUserTime_failure_leaves_outputs (P := zircon_release) scripted
              [refused] 11 22
              (fst (fst (run scripted
                           (OS_GetUserTime (P := zircon_release) 11 22)
                           [refused])))
              [] [(zx_object_get_info 2 15, refused)])
    as (info & Htr & Hfail & _).
  - vm_compute. reflexivity.
  - injection Htr as <-. apply Hfail. vm_compute. discriminate.
Defined.

(** * Further properties of the file *)

(** ** Option words *)

Lemma land_0_bits (a b n : Z) :
  Z.land a b = 0 -> Z.testbit a n = true -> Z.testbit b n = false.
Proof.
  intros H Ha.
  assert (Hn : Z.testbit (Z.land a b) n = false) by (rewrite H; apply Z.bits_0).
  rewrite Z.land_spec, Ha in Hn. exact Hn.
Qed.

Lemma lor_0_parts (a b : Z) : Z.lor a b = 0 -> a = 0 /\ b = 0.
Proof. intro H. apply Z.lor_eq_0_iff in H. exact H. Qed.

Section OptionWords.
Context {P : Platform}.

Lemma perm_masks :
  distinct_permissions ->
  forall a,
    Z.land (GetProtectionFromMemoryPermission a) ZX_VM_PERM_READ
    = match a with
      | kNoAccess | kNoAccessWillJitLater => 0
      | _ => ZX_VM_PERM_READ
      end /\
    Z.land (GetProtectionFromMemoryPermission a) ZX_VM_PERM_WRITE
    = match a with
      | kReadWrite | kReadWriteExecute => ZX_VM_PERM_WRITE
      | _ => 0
      end /\
    Z.land (GetProtectionFromMemoryPermission a) ZX_VM_PERM_EXECUTE
    = match a with
      | kReadWriteExecute | kReadExecute => ZX_VM_PERM_EXECUTE
      | _ => 0
      end.
Proof.
  intros (_ & _ & _ & Hrw & Hrx & Hwx) a.
  assert (Hwr := Hrw). rewrite Z.land_comm in Hwr.
  assert (Hxr := Hrx). rewrite Z.land_comm in Hxr.
  assert (Hxw := Hwx). rewrite Z.land_comm in Hxw.
  destruct a; cbn [GetProtectionFromMemoryPermission];
    rewrite ?Z.land_lor_distr_l, ?Z.land_diag, ?Z.land_0_l,
      ?Hrw, ?Hrx, ?Hwx, ?Hwr, ?Hxr, ?Hxw, ?Z.lor_0_l, ?Z.lor_0_r;
    repeat split; reflexivity.
Qed.

(** X1.  When the three permission bits are different and not empty, the
    bitmask tells the access levels apart, except [kNoAccess] and
    [kNoAccessWillJitLater], which the kernel cannot distinguish; and a level
    grants writing or executing only together with reading. *)
Theorem GetProtectionFromMemoryPermission_separates :
  distinct_permissions ->
  (forall a b,
     GetProtectionFromMemoryPermission a = GetProtectionFromMemoryPermission b
     <-> a = b \/
         (In a [kNoAccess; kNoAccessWillJitLater] /\
          In b [kNoAccess; kNoAccessWillJitLater])) /\
  (forall a,
     Z.land (GetProtectionFromMemoryPermission a) ZX_VM_PERM_READ = 0 ->
     GetProtectionFromMemoryPermission a = 0).
Proof.
  intro Hd. pose proof (perm_masks Hd) as Hm.
  destruct Hd as (Hr & Hw & Hx & _).
  split.
  - intros a b. split.
    + intro Heq.
      destruct (Hm a) as (Har & Haw & Hax).
      destruct (Hm b) as (Hbr & Hbw & Hbx).
      rewrite Heq in Har, Haw, Hax.
      rewrite Hbr in Har. rewrite Hbw in Haw. rewrite Hbx in Hax.
      destruct a, b; try (left; reflexivity);
        try (right; simpl; tauto);
        exfalso; first [ apply Hr; congruence | apply Hw; congruence
                       | apply Hx; congruence ].
    + intros [->|[Ha Hb]]; [reflexivity|].
      simpl in Ha, Hb.
      destruct Ha as [<-|[<-|[]]], Hb as [<-|[<-|[]]]; reflexivity.
  - intros a Hz. destruct (Hm a) as (Har & _). rewrite Hz in Har.
    destruct a; try reflexivity; exfalso; apply Hr; congruence.
Qed.

End OptionWords.

Lemma zircon_release_distinct_permissions :
  distinct_permissions (P := zircon_release).
Proof. vm_compute. repeat split; discriminate. Qed.

Lemma GetProtectionFromMemoryPermission_separates_witness :
  (GetProtectionFromMemoryPermission (P := zircon_release) kReadWrite
   = GetProtectionFromMemoryPermission (P := zircon_release) kReadExecute
   <-> kReadWrite = kReadExecute \/
       (In kReadWrite [kNoAccess; kNoAccessWillJitLater] /\
        In kReadExecute [kNoAccess; kNoAccessWillJitLater])).
Proof.
  apply (proj1 (GetProtectionFromMemoryPermission_separates
                  (P := zircon_release)
                  zircon_release_distinct_permissions)).
Defined.

Lemma clear_added_bits (x S : Z) :
  (forall n, 0 <= n -> Z.testbit x n = true ->
             n < 32 /\ Z.testbit S n = false) ->
  Z.land (Z.lor x S) (not32 S) = x.
Proof.
  intro Hx. apply Z.bits_inj'. intros n Hn.
  unfold not32, wrap32.
  rewrite Z.land_spec, Z.lor_spec, Z.testbit_mod_pow2 by lia.
  rewrite Z.lnot_spec by exact Hn.
  destruct (Z.testbit x n) eqn:Hbit.
  - destruct (Hx n Hn Hbit) as [Hlt Hs]. rewrite Hs.
    apply Z.ltb_lt in Hlt. rewrite Hlt. reflexivity.
  - destruct (Z.testbit S n), (n <? 32); reflexivity.
Qed.

Section AlignmentField.
Context {P : Platform}.

Lemma GetAlignmentOptionFromAlignment_range (alignment : Z) :
  0 <= GetAlignmentOptionFromAlignment alignment < 2 ^ 32.
Proof.
  unfold GetAlignmentOptionFromAlignment, wrap32.
  apply Z.mod_pos_bound. reflexivity.
Qed.

Lemma GetAlignmentOptionFromAlignment_low_bits (alignment i : Z) :
  0 <= i < ZX_VM_ALIGN_BASE ->
  Z.testbit (GetAlignmentOptionFromAlignment alignment) i = false.
Proof.
  intro Hi. unfold GetAlignmentOptionFromAlignment, wrap32.
  rewrite Z.testbit_mod_pow2 by lia.
  rewrite Z.shiftl_spec_low by lia. apply andb_false_r.
Qed.

(** X2.  With [ZX_VM_ALIGN_BASE] between 0 and 26: the alignment option is a
    32-bit word with no bit below [ZX_VM_ALIGN_BASE], and shifting it back
    down gives the base-2 logarithm of a supported alignment and [0] for any
    other; so the class can be read back from an option word, and it never
    overlaps an option bit that lies below [ZX_VM_ALIGN_BASE]. *)
Theorem alignment_class_field (alignment : Z) :
  0 <= ZX_VM_ALIGN_BASE <= 26 ->
  0 <= GetAlignmentOptionFromAlignment alignment < 2 ^ 32 /\
  (forall i, 0 <= i < ZX_VM_ALIGN_BASE ->
     Z.testbit (GetAlignmentOptionFromAlignment alignment) i = false) /\
  (forall k, 10 <= k <= 32 -> alignment = 2 ^ k ->
     Z.shiftr (GetAlignmentOptionFromAlignment alignment) ZX_VM_ALIGN_BASE
     = Z.log2 alignment) /\
  (~ supported_alignment alignment ->
     Z.shiftr (GetAlignmentOptionFromAlignment alignment) ZX_VM_ALIGN_BASE
     = 0).
Proof.
  intro Hb. split; [apply GetAlignmentOptionFromAlignment_range|].
  split; [intros i Hi; apply GetAlignmentOptionFromAlignment_low_bits, Hi|].
  split.
  - intros k Hk ->. unfold GetAlignmentOptionFromAlignment.
    rewrite alignment_log2_of_supported, class_no_wrap by assumption.
    rewrite Z.log2_pow2 by lia.
    rewrite Z.shiftr_div_pow2 by lia.
    apply Z.div_mul. apply Z.pow_nonzero; lia.
  - intro Hn. unfold GetAlignmentOptionFromAlignment.
    rewrite alignment_log2_of_unsupported by exact Hn.
    rewrite Z.shiftl_0_l. unfold wrap32. rewrite Z.mod_0_l by discriminate.
    apply Z.shiftr_0_l.
Qed.

Lemma perm_bits_below (access : MemoryPermission) (n : Z) :
  Z.testbit (GetProtectionFromMemoryPermission access) n = true ->
  Z.testbit perm_everything n = true.
Proof.
  unfold perm_everything. rewrite !Z.lor_spec.
  destruct access; cbn [GetProtectionFromMemoryPermission];
    rewrite ?Z.lor_spec, ?Z.bits_0;
    destruct (Z.testbit ZX_VM_PERM_READ n), (Z.testbit ZX_VM_PERM_WRITE n),
      (Z.testbit ZX_VM_PERM_EXECUTE n); simpl; intro H;
    first [reflexivity | discriminate H].
Qed.

Lemma specific_bits_low (n : Z) :
  0 <= ZX_VM_ALIGN_BASE -> 0 <= ZX_VM_SPECIFIC < 2 ^ ZX_VM_ALIGN_BASE ->
  0 <= n -> Z.testbit ZX_VM_SPECIFIC n = true -> n < ZX_VM_ALIGN_BASE.
Proof.
  intros Hb Hs Hn Hbit.
  destruct (Z.ltb_spec n ZX_VM_ALIGN_BASE) as [Hlt|Hge]; [exact Hlt|].
  exfalso. destruct (Z.eq_dec ZX_VM_SPECIFIC 0) as [E|Hnz].
  - rewrite E, Z.bits_0 in Hbit. discriminate Hbit.
  - rewrite Z.bits_above_log2 in Hbit; [discriminate Hbit|lia|].
    assert (Z.log2 ZX_VM_SPECIFIC < ZX_VM_ALIGN_BASE)
      by (apply Z.log2_lt_pow2; lia).
    lia.
Qed.

(** Under the layout of the option word, taking [ZX_VM_SPECIFIC] out of a
    hinted request leaves the option word of the same request made
    anywhere. *)
Lemma mapping_retry_options (access : MemoryPermission) (alignment : Z) :
  option_layout ->
  let options :=
    Z.lor (GetProtectionFromMemoryPermission access)
          (GetAlignmentOptionFromAlignment alignment) in
  Z.land (Z.lor options ZX_VM_SPECIFIC) (not32 ZX_VM_SPECIFIC) = options.
Proof.
  intros (Hb & Hs & Hp & Hps & _ & _) options. subst options.
  apply clear_added_bits. intros n Hn Hbit.
  rewrite Z.lor_spec in Hbit. apply orb_true_iff in Hbit as [Hbit|Hbit].
  - apply perm_bits_below in Hbit. split.
    + apply (testbit_below_32 perm_everything); assumption.
    + apply (land_0_bits perm_everything); assumption.
  - split.
    + apply (testbit_below_32 (GetAlignmentOptionFromAlignment alignment));
        [apply GetAlignmentOptionFromAlignment_range | exact Hbit].
    + destruct (Z.testbit ZX_VM_SPECIFIC n) eqn:Hsn; [|reflexivity].
      apply specific_bits_low in Hsn; try assumption.
      rewrite GetAlignmentOptionFromAlignment_low_bits in Hbit by lia.
      discriminate Hbit.
Qed.

Lemma reservation_retry_options (alignment : Z) :
  option_layout ->
  let options :=
    Z.lor can_map_everything (GetAlignmentOptionFromAlignment alignment) in
  Z.land (Z.lor options ZX_VM_SPECIFIC) (not32 ZX_VM_SPECIFIC) = options.
Proof.
  intros (Hb & Hs & _ & _ & Hc & Hcs) options. subst options.
  apply clear_added_bits. intros n Hn Hbit.
  rewrite Z.lor_spec in Hbit. apply orb_true_iff in Hbit as [Hbit|Hbit].
  - split.
    + apply (testbit_below_32 can_map_everything); assumption.
    + apply (land_0_bits can_map_everything); assumption.
  - split.
    + apply (testbit_below_32 (GetAlignmentOptionFromAlignment alignment));
        [apply GetAlignmentOptionFromAlignment_range | exact Hbit].
    + destruct (Z.testbit ZX_VM_SPECIFIC n) eqn:Hsn; [|reflexivity].
      apply specific_bits_low in Hsn; try assumption.
      rewrite GetAlignmentOptionFromAlignment_low_bits in Hbit by lia.
      discriminate Hbit.
Qed.

End AlignmentField.

(** ** More on the placement protocol *)

(** The cases of a shape, with the replies named [q0], [q1], ... in the
    order of the calls. *)
Ltac allocate_cases H :=
  destruct H as [why | why q0 q1 q2 Hq0 Hq2 | q0 Hq0
                 | q0 q1 q2 Hq0 Hq2 | q0 q1 q2 q3 Hq0 Hq2 Hq3
                 | q0 q1 q2 q3 q4 Hq0 Hq2 Hq3 Hmode].

Ltac reserve_cases H :=
  destruct H as [why | q1 Hq1 | q1 q2 Hq1 Hmode].

Section MorePlacement.
Context {P : Platform}.

(** The shape of a run, from its equation. *)
Lemma AllocateInternal_shape (K : Kernel) (s : kstate K) (g : Globals)
    (vmar vmar_base page_size address : Z) (placement : PlacementMode)
    (size alignment : Z) (access : MemoryPermission)
    (o : outcome Z) (s' : kstate K) (tr : list event) :
  run K (AllocateInternal g vmar vmar_base page_size address placement size
           alignment access) s = (o, s', tr) ->
  AllocateRun g vmar vmar_base address placement size alignment access o tr.
Proof.
  intro Hrun. apply run_triple in Hrun as [Ho Htr].
  pose proof (AllocateInternal_run K s g vmar vmar_base page_size address
                placement size alignment access) as Hshape.
  rewrite Ho, Htr in Hshape. exact Hshape.
Qed.

Lemma CreateAddressSpaceReservationInternal_shape (K : Kernel) (s : kstate K)
    (vmar vmar_base page_size address : Z) (placement : PlacementMode)
    (size alignment : Z) (max_permission : MemoryPermission)
    (o : outcome reply) (s' : kstate K) (tr : list event) :
  run K (CreateAddressSpaceReservationInternal vmar vmar_base page_size
           address placement size alignment max_permission) s = (o, s', tr) ->
  ReserveRun vmar vmar_base address placement size alignment o tr.
Proof.
  intro Hrun. apply run_triple in Hrun as [Ho Htr].
  pose proof (CreateAddressSpaceReservationInternal_run K s vmar vmar_base
                page_size address placement size alignment max_permission)
    as Hshape.
  rewrite Ho, Htr in Hshape. exact Hshape.
Qed.

(** X3.  Under the layout of the option word: the second request of a
    hinted allocation or reservation is, option word and offset, the one
    request the same call makes in [kAnywhere] mode: the requested
    permission (resp. creation) bits and the alignment class, offset [0]. *)
Theorem hint_retry_is_anywhere_request (K : Kernel) (s : kstate K)
    (g : Globals) (vmar vmar_base page_size address size alignment : Z)
    (access max_permission : MemoryPermission) :
  option_layout ->
  let map_options :=
    Z.lor (GetProtectionFromMemoryPermission access)
          (GetAlignmentOptionFromAlignment alignment) in
  let allocate_options :=
    Z.lor can_map_everything (GetAlignmentOptionFromAlignment alignment) in
  (forall o s' tr c1 r1 c2 r2,
     run K (AllocateInternal g vmar vmar_base page_size address kUseHint
              size alignment access) s = (o, s', tr) ->
     placements tr = [(c1, r1); (c2, r2)] ->
     exists vmo, c2 = zx_vmar_map vmar map_options 0 vmo 0 size) /\
  (forall o s' tr c1 r1 rest,
     run K (AllocateInternal g vmar vmar_base page_size address kAnywhere
              size alignment access) s = (o, s', tr) ->
     placements tr = (c1, r1) :: rest ->
     rest = [] /\ exists vmo, c1 = zx_vmar_map vmar map_options 0 vmo 0 size) /\
  (forall o s' tr c1 r1 c2 r2,
     run K (CreateAddressSpaceReservationInternal vmar vmar_base page_size
              address kUseHint size alignment max_permission) s
       = (o, s', tr) ->
     placements tr = [(c1, r1); (c2, r2)] ->
     c2 = zx_vmar_allocate vmar allocate_options 0 size) /\
  (forall o s' tr c1 r1 rest,
     run K (CreateAddressSpaceReservationInternal vmar vmar_base page_size
              address kAnywhere size alignment max_permission) s
       = (o, s', tr) ->
     placements tr = (c1, r1) :: rest ->
     rest = [] /\ c1 = zx_vmar_allocate vmar allocate_options 0 size).
Proof.
  intros Hlayout map_options allocate_options.
  pose proof (mapping_retry_options access alignment Hlayout) as Hmap.
  pose proof (reservation_retry_options alignment Hlayout) as Hres.
  cbv zeta in Hmap, Hres. subst map_options allocate_options.
  split; [|split; [|split]].
  - intros o s' tr c1 r1 c2 r2 Hrun Hp.
    apply AllocateInternal_shape in Hrun. allocate_cases Hrun;
      cbn in Hp; try discriminate Hp.
    injection Hp as _ _ <- _. subst options. rewrite Hmap.
    exists (r_val q2). reflexivity.
  - intros o s' tr c1 r1 rest Hrun Hp.
    apply AllocateInternal_shape in Hrun. allocate_cases Hrun;
      cbn in Hp; try discriminate Hp; try discriminate Hmode.
    injection Hp as <- _ <-. split; [reflexivity|].
    exists (r_val q2). reflexivity.
  - intros o s' tr c1 r1 c2 r2 Hrun Hp.
    apply CreateAddressSpaceReservationInternal_shape in Hrun.
    reserve_cases Hrun; cbn in Hp; try discriminate Hp.
    injection Hp as _ _ <- _. subst options.
    rewrite Hres. reflexivity.
  - intros o s' tr c1 r1 rest Hrun Hp.
    apply CreateAddressSpaceReservationInternal_shape in Hrun.
    reserve_cases Hrun; cbn in Hp; try discriminate Hp;
      try discriminate Hmode.
    injection Hp as <- _ <-. split; reflexivity.
Qed.


(** X5.  Every mapping the allocation primitive asks for is of the object
    that [replace_as_executable] returned, from its start and for the whole
    requested size, into the given address space; the handle first given by
    [zx::vmo::create] is never mapped, and no mapping is asked for unless
    both the creation and the upgrade were granted. *)
Theorem maps_only_the_upgraded_object (K : Kernel) (s : kstate K)
    (g : Globals) (vmar vmar_base page_size address : Z)
    (placement : PlacementMode) (size alignment : Z)
    (access : MemoryPermission) (o : outcome Z) (s' : kstate K)
    (tr : list event) (v options offset vmo vmo_offset len : Z) (r : reply) :
  run K (AllocateInternal g vmar vmar_base page_size address placement size
           alignment access) s = (o, s', tr) ->
  In (zx_vmar_map v options offset vmo vmo_offset len, r) tr ->
  v = vmar /\ vmo_offset = 0 /\ len = size /\
  exists r0 r1 r2 rest,
    tr = vmo_prologue g size r0 r1 r2 ++ rest /\
    r_status r0 = ZX_OK /\ r_status r2 = ZX_OK /\ vmo = r_val r2.
Proof.
  intros Hrun Hin.
  apply AllocateInternal_shape in Hrun. allocate_cases Hrun;
    cbn in Hin; repeat (destruct Hin as [Hin|Hin]; try discriminate Hin);
    try (destruct Hin; fail).
  - injection Hin as <- _ _ <- <- <- _.
    repeat split. exists q0, q1, q2. eexists. repeat split; assumption.
  - injection Hin as <- _ _ <- <- <- _.
    repeat split. exists q0, q1, q2. eexists. repeat split; assumption.
  - injection Hin as <- _ _ <- <- <- _.
    repeat split. exists q0, q1, q2. eexists. repeat split; assumption.
Qed.

(** X6.  The offset of a hinted or fixed request is the distance of the
    address from the base of the address space, computed in [size_t]: it
    lies in 64 bits, the base plus the offset is the address again modulo
    [2^64], and it is the plain difference when the address is not below the
    base.  In [kAnywhere] mode the offset is [0]. *)
Theorem placement_offset (K : Kernel) (s : kstate K) (g : Globals)
    (vmar vmar_base page_size address : Z) (placement : PlacementMode)
    (size alignment : Z) (access max_permission : MemoryPermission)
    (c1 : syscall) (r1 : reply) (rest : list event) :
  0 <= address < 2 ^ 64 ->
  let good offset :=
    match placement with
    | kAnywhere => offset = 0
    | kUseHint | kFixed =>
        0 <= offset < 2 ^ 64 /\
        wrap64 (vmar_base + offset) = address /\
        (vmar_base <= address -> 0 <= vmar_base ->
         offset = address - vmar_base)
    end in
  (forall o s' tr,
     run K (AllocateInternal g vmar vmar_base page_size address placement
              size alignment access) s = (o, s', tr) ->
     placements tr = (c1, r1) :: rest ->
     exists options offset vmo,
       c1 = zx_vmar_map vmar options offset vmo 0 size /\ good offset) /\
  (forall o s' tr,
     run K (CreateAddressSpaceReservationInternal vmar vmar_base page_size
              address placement size alignment max_permission) s
       = (o, s', tr) ->
     placements tr = (c1, r1) :: rest ->
     exists options offset,
       c1 = zx_vmar_allocate vmar options offset size /\ good offset).
Proof.
  intros Haddr good.
  assert (Hgood : good (first_offset placement vmar_base address)).
  { subst good. destruct placement; cbn [first_offset]; try reflexivity.
    all: unfold wrap64; split; [apply Z.mod_pos_bound; reflexivity|];
      split; [rewrite Zplus_mod_idemp_r;
              replace (vmar_base + (address - vmar_base)) with address by lia;
              apply Z.mod_small; exact Haddr
             | intros; apply Z.mod_small; lia]. }
  split.
  - intros o s' tr Hrun Hp.
    apply AllocateInternal_shape in Hrun. allocate_cases Hrun;
      cbn in Hp; try discriminate Hp.
    + injection Hp as <- _ _. eexists _, _, _. split; [reflexivity|exact Hgood].
    + injection Hp as <- _ _. subst placement.
      eexists _, _, _. split; [reflexivity|exact Hgood].
  - intros o s' tr Hrun Hp.
    apply CreateAddressSpaceReservationInternal_shape in Hrun.
    reserve_cases Hrun; cbn in Hp; try discriminate Hp.
    + injection Hp as <- _ _. eexists _, _. split; [reflexivity|exact Hgood].
    + injection Hp as <- _ _. subst placement.
      eexists _, _. split; [reflexivity|exact Hgood].
Qed.

End MorePlacement.

(** ** Aborts *)

Section Aborts.
Context {P : Platform}.

(** Run a program to its end, splitting on every check and every test. *)
Ltac run_through :=
  repeat match goal with
  | |- context [run _ (bind (bind _ _) _) _] => rewrite run_bind_assoc
  | |- context [run _ (bind (DCHECK ?c _) _) _] =>
      rewrite run_DCHECK; destruct (DEBUG && negb c) eqn:?
  | |- context [run _ (bind (CHECK ?c _) _) _] =>
      rewrite run_CHECK; destruct c eqn:?
  | |- context [run _ (bind (call ?c) _) ?s] =>
      rewrite run_call; destruct (ksys _ c s) as [? ?] eqn:?
  | |- context [run _ (if ?c then _ else _) _] => destruct c eqn:?
  | |- context [run _ (bind (if ?c then _ else _) _) _] => destruct c eqn:?
  | |- context [run _ (bind (Ret _) _) _] => cbn [bind]
  | |- context [run _ (Ret _) _] => cbn [run]
  | |- context [run _ (call _) ?s] => unfold call at 1; cbn [run]
  | |- context [let (_, _) := ksys ?K ?c ?s in _] =>
      destruct (ksys K c s) as [? ?] eqn:?
  end.

(** An abort with an empty trace, a return, or an impossible case. *)
Ltac abort_or_return :=
  let H := fresh in
  intro H;
  solve [ discriminate H
        | injection H as _ <- <-; split; reflexivity
        | congruence ].

(** X7.  Freeing, changing permissions, discarding, decommitting, destroying
    a reservation and creating one at the root abort, if they abort, before
    their first system call: an aborted call has asked nothing of the kernel
    and has left its state as it was.  In particular [DecommitPages] does not
    abort between its two steps. *)
Theorem aborts_before_first_call (K : Kernel) (s : kstate K) (g : Globals)
    (this reservation : AddressSpaceReservation)
    (address size alignment : Z) (access max_permission : MemoryPermission) :
  aborts_first K s (OS_Free address size) /\
  aborts_first K s (OS_Release address size) /\
  aborts_first K s (OS_SetPermissions address size access) /\
  aborts_first K s (OS_DiscardSystemPages address size) /\
  aborts_first K s (OS_DecommitPages address size) /\
  aborts_first K s (OS_FreeAddressSpaceReservation reservation) /\
  aborts_first K s (OS_CreateAddressSpaceReservation g address size alignment
                      max_permission) /\
  aborts_first K s (AddressSpaceReservation_Free this address size) /\
  aborts_first K s (AddressSpaceReservation_SetPermissions this address size
                      access) /\
  aborts_first K s (AddressSpaceReservation_DiscardSystemPages this address
                      size) /\
  aborts_first K s (AddressSpaceReservation_DecommitPages this address size) /\
  aborts_first K s (AddressSpaceReservation_FreeSubReservation this
                      reservation).
Proof.
  unfold aborts_first, OS_Release, OS_Free, OS_SetPermissions,
    OS_DiscardSystemPages, OS_DecommitPages, OS_FreeAddressSpaceReservation,
    OS_CreateAddressSpaceReservation, AddressSpaceReservation_Free,
    AddressSpaceReservation_SetPermissions,
    AddressSpaceReservation_DiscardSystemPages,
    AddressSpaceReservation_DecommitPages,
    AddressSpaceReservation_FreeSubReservation,
    OS_FreeAddressSpaceReservation, and_then,
    AddressSpaceReservation_SetPermissions,
    AddressSpaceReservation_DiscardSystemPages, FreeInternal,
    SetPermissionsInternal, DiscardSystemPagesInternal,
    CreateAddressSpaceReservationInternal.
  repeat match goal with |- _ /\ _ => split end; intros why s' tr.
  all: unfold OS_SetPermissions, OS_DiscardSystemPages,
         SetPermissionsInternal, DiscardSystemPagesInternal.
  all: try match goal with
           | |- context [negb (?a =? nullptr)] =>
               destruct (negb (a =? nullptr));
               cbn [PlacementMode_eqb negb]
           end.
  all: run_through; abort_or_return.
Qed.

Lemma supported_alignment_class (alignment : Z) :
  0 <= ZX_VM_ALIGN_BASE <= 26 -> supported_alignment alignment ->
  GetAlignmentOptionFromAlignment alignment <> 0.
Proof.
  intros Hb (k & Hk & ->). unfold GetAlignmentOptionFromAlignment.
  rewrite alignment_log2_of_supported, class_no_wrap by assumption.
  assert (0 < 2 ^ ZX_VM_ALIGN_BASE) by (apply Z.pow_pos_nonneg; lia).
  nia.
Qed.

Lemma unsupported_alignment_class (alignment : Z) :
  ~ supported_alignment alignment ->
  GetAlignmentOptionFromAlignment alignment = 0.
Proof.
  intro Hn. unfold GetAlignmentOptionFromAlignment.
  rewrite alignment_log2_of_unsupported by exact Hn.
  rewrite Z.shiftl_0_l. reflexivity.
Qed.

(** X8.  An alignment that is not a power of two from 1 KiB to 4 GiB never
    reaches the kernel: the allocation primitive makes no placement request
    and gives no address (it aborts at the alignment check, or returns
    [nullptr] when the memory object could not be made or upgraded, which is
    tried first), and the reservation primitive aborts before any system
    call. *)
Theorem unsupported_alignment_is_never_placed (K : Kernel) (s : kstate K)
    (g : Globals) (vmar vmar_base page_size address : Z)
    (placement : PlacementMode) (size alignment : Z)
    (access max_permission : MemoryPermission) :
  ~ supported_alignment alignment ->
  (forall o s' tr,
     run K (AllocateInternal g vmar vmar_base page_size address placement
              size alignment access) s = (o, s', tr) ->
     placements tr = [] /\ (forall a, o = Returned a -> a = nullptr)) /\
  (forall o s' tr,
     run K (CreateAddressSpaceReservationInternal vmar vmar_base page_size
              address placement size alignment max_permission) s
       = (o, s', tr) ->
     tr = [] /\ exists why, o = Aborted why).
Proof.
  intro Hn. apply unsupported_alignment_class in Hn.
  split; intros o s' tr.
  - unfold AllocateInternal. rewrite Hn.
    change (negb (0 =? 0)) with false.
    run_through.
    all: try match goal with H : false = true |- _ => discriminate H end.
    all: intro H; injection H as <- <- <-; split; [reflexivity|].
    all: intros a Ha; first [discriminate Ha | injection Ha as <-; reflexivity].
  - unfold CreateAddressSpaceReservationInternal. rewrite Hn.
    change (negb (0 =? 0)) with false.
    run_through.
    all: try match goal with H : false = true |- _ => discriminate H end.
    all: intro H; injection H as <- <- <-; split; [reflexivity|].
    all: eexists; reflexivity.
Qed.

(** The alignment check passes. *)
Ltac alignment_ok :=
  match goal with
  | H : negb (0 =? _) = false |- _ =>
      apply negb_false_iff in H; apply Z.eqb_eq in H; congruence
  end.

(** X9.  On a build without [DCHECK]s nothing but the alignment check can
    abort: with a supported alignment the two primitives and the root-level
    [Allocate] and [CreateAddressSpaceReservation] return to their caller
    whatever the kernel answers; the methods of a reservation that place
    something do so when the allocation page size is a supported alignment;
    and freeing, changing permissions, discarding and decommitting always
    return. *)
Theorem release_build_returns (K : Kernel) (s : kstate K) (g : Globals)
    (this : AddressSpaceReservation)
    (vmar vmar_base page_size address : Z) (placement : PlacementMode)
    (size alignment : Z) (access max_permission : MemoryPermission) :
  DEBUG = false ->
  0 <= ZX_VM_ALIGN_BASE <= 26 ->
  (supported_alignment alignment ->
   returns K s (AllocateInternal g vmar vmar_base page_size address placement
                  size alignment access) /\
   returns K s (CreateAddressSpaceReservationInternal vmar vmar_base
                  page_size address placement size alignment
                  max_permission) /\
   returns K s (OS_Allocate g address size alignment access) /\
   returns K s (OS_CreateAddressSpaceReservation g address size alignment
                  max_permission)) /\
  (supported_alignment AllocatePageSize ->
   returns K s (AddressSpaceReservation_Allocate g this address size access) /\
   returns K s (AddressSpaceReservation_CreateSubReservation this address
                  size max_permission)) /\
  returns K s (OS_Free address size) /\
  returns K s (OS_SetPermissions address size access) /\
  returns K s (OS_DiscardSystemPages address size) /\
  returns K s (OS_DecommitPages address size) /\
  returns K s (AddressSpaceReservation_Free this address size) /\
  returns K s (AddressSpaceReservation_SetPermissions this address size
                 access) /\
  returns K s (AddressSpaceReservation_DiscardSystemPages this address
                 size) /\
  returns K s (AddressSpaceReservation_DecommitPages this address size).
Proof.
  intros Hrelease Hbase.
  assert (Hcheck : forall (A : Type) (c : bool) (w : string) (k : unit -> zx A)
                     (s0 : kstate K),
             run K (bind (DCHECK c w) k) s0 = run K (k tt) s0).
  { intros A c w k s0. rewrite run_DCHECK, Hrelease. reflexivity. }
  unfold returns.
  split; [|split].
  - intro Hal. apply (supported_alignment_class _ Hbase) in Hal.
    unfold OS_Allocate, OS_CreateAddressSpaceReservation, AllocateInternal,
      CreateAddressSpaceReservationInternal.
    repeat match goal with |- _ /\ _ => split end.
    all: repeat first [ rewrite run_bind_assoc | rewrite Hcheck ].
    all: run_through; try alignment_ok.
    all: try match goal with
             | H : DEBUG && _ = true |- _ =>
                 rewrite Hrelease in H; discriminate H
             end.
    all: eexists _, _, _; reflexivity.
  - intro Hal. apply (supported_alignment_class _ Hbase) in Hal.
    unfold AddressSpaceReservation_Allocate,
      AddressSpaceReservation_CreateSubReservation, AllocateInternal,
      CreateAddressSpaceReservationInternal.
    cbn [PlacementMode_eqb negb andb].
    repeat match goal with |- _ /\ _ => split end.
    all: repeat first [ rewrite run_bind_assoc | rewrite Hcheck ].
    all: run_through; try alignment_ok.
    all: try match goal with
             | H : DEBUG && _ = true |- _ =>
                 rewrite Hrelease in H; discriminate H
             end.
    all: eexists _, _, _; reflexivity.
  - unfold OS_Free, OS_SetPermissions, OS_DiscardSystemPages,
      OS_DecommitPages, AddressSpaceReservation_Free,
      AddressSpaceReservation_SetPermissions,
      AddressSpaceReservation_DiscardSystemPages,
      AddressSpaceReservation_DecommitPages, and_then.
    unfold OS_SetPermissions, OS_DiscardSystemPages,
      AddressSpaceReservation_SetPermissions,
      AddressSpaceReservation_DiscardSystemPages, FreeInternal,
      SetPermissionsInternal, DiscardSystemPagesInternal.
    repeat match goal with |- _ /\ _ => split end.
    all: repeat first [ rewrite run_bind_assoc | rewrite Hcheck ].
    all: run_through.
    all: try match goal with
             | H : DEBUG && _ = true |- _ =>
                 rewrite Hrelease in H; discriminate H
             end.
    all: eexists _, _, _; reflexivity.
Qed.

End Aborts.

(** ** Sub-reservations *)

Section SubReservations.
Context {P : Platform}.

(** A run of [CreateSubReservation] is a [DCHECK], a run of the reservation
    primitive in [kFixed] mode, and on success a [DCHECK] on the child's
    address. *)
Lemma AddressSpaceReservation_CreateSubReservation_run (K : Kernel)
    (s : kstate K) (this : AddressSpaceReservation) (address size : Z)
    (max_permission : MemoryPermission)
    (o : outcome (option AddressSpaceReservation)) (s' : kstate K)
    (tr : list event) :
  run K (AddressSpaceReservation_CreateSubReservation this address size
           max_permission) s = (o, s', tr) ->
  (tr = [] /\ exists why, o = Aborted why) \/
  exists oi,
    run K (CreateAddressSpaceReservationInternal (vmar_ this) (base_ this)
             AllocatePageSize address kFixed size AllocatePageSize
             max_permission) s = (oi, s', tr) /\
    match oi with
    | Aborted why => o = Aborted why
    | Returned status =>
        if r_status status =? ZX_OK then
          if DEBUG && negb (r_val2 status =? address)
          then exists why, o = Aborted why
          else o = Returned (Some (mkReservation (r_val2 status) size
                                     (r_val status)))
        else o = Returned None
    end.
Proof.
  unfold AddressSpaceReservation_CreateSubReservation.
  rewrite run_DCHECK.
  destruct (DEBUG && negb (Contains this address size)).
  - intro H. injection H as <- <- <-. left. split; [reflexivity|].
    eexists. reflexivity.
  - rewrite run_bind.
    destruct (run K (CreateAddressSpaceReservationInternal _ _ _ _ _ _ _ _) s)
      as [[[status|why] s1] t1].
    + destruct (r_status status =? ZX_OK) eqn:Hok; cbn [negb].
      * rewrite run_DCHECK.
        destruct (DEBUG && negb (r_val2 status =? address)) eqn:Echeck;
          cbn [run]; rewrite app_nil_r; intro H; injection H as <- <- <-;
          right; exists (Returned status); rewrite Hok, Echeck;
          (split; [reflexivity|]); [eexists|]; reflexivity.
      * cbn [run]. rewrite app_nil_r. intro H. injection H as <- <- <-.
        right. exists (Returned status). rewrite Hok. split; reflexivity.
    + intro H. injection H as <- <- <-. right.
      exists (Aborted why). split; reflexivity.
Qed.

(** X10.  For a range inside the reservation, [CreateSubReservation] makes
    at most one placement request and never falls back to another address.
    A reservation it returns starts at the requested address, has the
    requested size, lies inside its parent and holds the handle of the child
    the kernel made with [ZX_VM_SPECIFIC] at the offset of the address from
    the parent's base; when the kernel refuses, the result is absent after
    that single request.  The equality of the addresses is tested by the
    last [DCHECK] on a [DEBUG] build and follows from the kernel's contract
    on any build. *)
Theorem CreateSubReservation_fixed (K : Kernel) (s : kstate K)
    (this : AddressSpaceReservation) (address size : Z)
    (max_permission : MemoryPermission)
    (o : outcome (option AddressSpaceReservation)) (s' : kstate K)
    (tr : list event) :
  Contains this address size = true ->
  0 <= base_ this -> address < 2 ^ 64 ->
  DEBUG = true \/ honours_specific_allocate K (vmar_ this) (base_ this) ->
  run K (AddressSpaceReservation_CreateSubReservation this address size
           max_permission) s = (o, s', tr) ->
  (List.length (placements tr) <= 1)%nat /\
  (forall sub, o = Returned (Some sub) ->
     base_ sub = address /\ size_ sub = size /\
     Contains this (base_ sub) (size_ sub) = true /\
     exists r,
       tr = [(zx_vmar_allocate (vmar_ this)
                (Z.lor (Z.lor can_map_everything
                          (GetAlignmentOptionFromAlignment AllocatePageSize))
                       ZX_VM_SPECIFIC)
                (address - base_ this) size, r)] /\
       r_status r = ZX_OK /\ vmar_ sub = r_val r) /\
  (o = Returned None ->
   exists c r, tr = [(c, r)] /\ r_status r <> ZX_OK).
Proof.
  intros Hin Hbase Haddr Hwhy Hrun.
  assert (Hlow : base_ this <= address).
  { apply andb_true_iff in Hin as [Hlow _]. apply Z.leb_le, Hlow. }
  assert (Hoff : wrap64 (address - base_ this) = address - base_ this)
    by (apply Z.mod_small; lia).
  apply AddressSpaceReservation_CreateSubReservation_run in Hrun
    as [[-> [why ->]] | (oi & Hrun & Hres)].
  { split; [simpl; lia|]. split; [intros sub H|intro H]; discriminate H. }
  pose proof (run_events K
                (CreateAddressSpaceReservationInternal (vmar_ this)
                   (base_ this) AllocatePageSize address kFixed size
                   AllocatePageSize max_permission) s) as Hev.
  pose proof (run_triple _ _ _ _ _ _ Hrun) as [_ Htr]. rewrite Htr in Hev.
  apply CreateAddressSpaceReservationInternal_shape in Hrun.
  reserve_cases Hrun; try discriminate Hmode.
  { subst o. split; [simpl; lia|].
    split; [intros sub H|intro H]; discriminate H. }
  split; [simpl; lia|].
  destruct (r_status q1 =? ZX_OK) eqn:Hok.
  - apply Z.eqb_eq in Hok. split.
    + intros sub ->.
      destruct (DEBUG && negb (r_val2 q1 =? address)) eqn:Echeck;
        [destruct Hres as [why Hres]; discriminate Hres|].
      injection Hres as ->. cbn [base_ size_ vmar_].
      assert (Hat : r_val2 q1 = address).
      { destruct Hwhy as [Hdebug|Hkernel].
        - rewrite Hdebug in Echeck. cbn [andb] in Echeck.
          apply negb_false_iff, Z.eqb_eq in Echeck. exact Echeck.
        - edestruct Hev as [s0 Hs0]; [left; reflexivity|].
          pose proof (Hkernel s0 (first_options kFixed options)
                        (first_offset kFixed (base_ this) address) size)
            as Hspec.
          cbv zeta in Hspec. rewrite Hs0 in Hspec.
          specialize (Hspec Hok (land_lor_same _ _)).
          cbn [first_offset] in Hspec. rewrite Hoff in Hspec. lia. }
      rewrite Hat. repeat split; [exact Hin|].
      exists q1. cbn [first_options first_offset]. rewrite Hoff.
      repeat split. exact Hok.
    + intros ->.
      destruct (DEBUG && negb (r_val2 q1 =? address));
        [destruct Hres as [why Hres]|]; discriminate Hres.
  - apply Z.eqb_neq in Hok. split.
    + intros sub ->. discriminate Hres.
    + intros _. eexists _, q1. split; [reflexivity|exact Hok].
Qed.

End SubReservations.

(** ** Aborts and the kernel's contract *)

Section AbortsAfterPlacement.
Context {P : Platform}.

(** X11.  With a kernel that keeps its contract for [ZX_VM_SPECIFIC], the
    [DCHECK] that follows the placement in [AddressSpaceReservation::Allocate]
    never fires: for a range inside the reservation, a run that aborts has
    made no placement request, so no mapping is left behind by an aborted
    call. *)
Theorem Allocate_aborts_before_placement (K : Kernel) (s : kstate K)
    (g : Globals) (this : AddressSpaceReservation) (address size : Z)
    (access : MemoryPermission) (reason : string) (s' : kstate K)
    (tr : list event) :
  Contains this address size = true ->
  0 <= base_ this -> address < 2 ^ 64 ->
  honours_specific K (vmar_ this) (base_ this) ->
  run K (AddressSpaceReservation_Allocate g this address size access) s
    = (Aborted reason, s', tr) ->
  placements tr = [].
Proof.
  intros Hin Hbase Haddr Hkernel Hrun.
  assert (Hlow : base_ this <= address).
  { apply andb_true_iff in Hin as [Hlow _]. apply Z.leb_le, Hlow. }
  assert (Hoff : wrap64 (address - base_ this) = address - base_ this)
    by (apply Z.mod_small; lia).
  apply AddressSpaceReservation_Allocate_run in Hrun
    as [[-> _] | (oa & Hrun & Hres)]; [reflexivity|].
  pose proof (run_events K
                (AllocateInternal g (vmar_ this) (base_ this)
                   AllocatePageSize address kFixed size AllocatePageSize
                   access) s) as Hev.
  pose proof (run_triple _ _ _ _ _ _ Hrun) as [_ Htr]. rewrite Htr in Hev.
  apply AllocateInternal_shape in Hrun.
  allocate_cases Hrun; try reflexivity; try discriminate Hmode.
  (* one placement was made: it cannot be followed by an abort *)
  exfalso. destruct (r_status q3 =? ZX_OK) eqn:Hok.
  - apply Z.eqb_eq in Hok.
    edestruct Hev as [s0 Hs0].
    { apply in_or_app. right. left. reflexivity. }
    pose proof (Hkernel s0 (first_options kFixed options)
                  (first_offset kFixed (base_ this) address) (r_val q2) 0
                  size) as Hspec.
    cbv zeta in Hspec. rewrite Hs0 in Hspec.
    specialize (Hspec Hok (land_lor_same _ _)).
    cbn [first_offset] in Hspec. rewrite Hoff in Hspec.
    assert (Hat : r_val q3 = address) by lia.
    rewrite Hat, Z.eqb_refl, orb_true_r in Hres.
    cbn [negb] in Hres. rewrite andb_false_r in Hres. discriminate Hres.
  - change (nullptr =? nullptr) with true in Hres.
    cbn [orb negb] in Hres. rewrite andb_false_r in Hres.
    discriminate Hres.
Qed.

End AbortsAfterPlacement.

(** ** More on CPU time *)

Section MoreUserTime.
Context {P : Platform}.

(** X12.  For a counter from 0 to 4294967295999999000 ns the time reported
    is never less than the counter and exceeds it by less than a
    microsecond; it is the counter itself when that is a whole number of
    microseconds; the microseconds stay below a million and the seconds fit
    32 bits. *)
Theorem GetUserTime_rounds_up (K : Kernel) (s : kstate K) (secs usecs : Z)
    (ut : UserTime) (s' : kstate K) (tr : list event) (info : reply) :
  run K (OS_GetUserTime secs usecs) s = (Returned ut, s', tr) ->
  tr = [(zx_object_get_info thread_self ZX_INFO_THREAD_STATS, info)] ->
  r_status info = ZX_OK ->
  0 <= r_val info <= 4294967295999999000 ->
  let reported := (ut_secs ut * 1000000 + ut_usecs ut) * 1000 in
  0 <= ut_usecs ut < 1000000 /\
  0 <= ut_secs ut < 2 ^ 32 /\
  r_val info <= reported < r_val info + 1000 /\
  (r_val info mod 1000 = 0 -> reported = r_val info).
Proof.
  intros Hrun Htr Hok Ht.
  pose proof (OS_GetUserTime_run K s secs usecs) as Hspec.
  cbv zeta in Hspec.
  destruct (ksys K _ s) as [info' s1]. rewrite Hspec in Hrun.
  injection Hrun as <- <- <-. injection Htr as <-.
  apply Z.eqb_eq in Hok. rewrite Hok. cbn [ut_secs ut_usecs].
  unfold wrap64, wrap32.
  change (2 ^ 64) with 18446744073709551616.
  change (2 ^ 32) with 4294967296.
  rewrite (Z.mod_small (r_val info')) by lia.
  rewrite (Z.mod_small (r_val info' + 1000)) by lia.
  rewrite (Z.mod_small (r_val info' + 1000 - 1)) by lia.
  set (micros := (r_val info' + 1000 - 1) / 1000).
  assert (Hm : 1000 * micros <= r_val info' + 999 < 1000 * micros + 1000).
  { subst micros. pose proof (Z.div_mod (r_val info' + 1000 - 1) 1000).
    pose proof (Z.mod_pos_bound (r_val info' + 1000 - 1) 1000). lia. }
  assert (Hq : micros / 1000000 < 4294967296).
  { apply Z.div_lt_upper_bound; lia. }
  assert (Hq0 : 0 <= micros / 1000000) by (apply Z.div_pos; lia).
  pose proof (Z.mod_pos_bound micros 1000000 ltac:(lia)) as Hu.
  rewrite (Z.mod_small (micros / 1000000)) by lia.
  rewrite (Z.mod_small (micros mod 1000000)) by lia.
  pose proof (Z.div_mod micros 1000000 ltac:(lia)) as Hsplit.
  repeat split; try lia.
  intro Hexact.
  pose proof (Z.div_mod (r_val info') 1000 ltac:(lia)) as Hd.
  rewrite Hexact in Hd. lia.
Qed.

End MoreUserTime.

(** ** Where results come from, and what the small operations ask *)

Section Provenance.
Context {P : Platform}.



End Provenance.

(** ** Concrete runs of the further properties *)

Lemma zircon_release_option_layout : option_layout (P := zircon_release).
Proof. vm_compute. repeat split; discriminate. Qed.

Lemma alignment_class_field_witness :
  Z.shiftr (GetAlignmentOptionFromAlignment (P := zircon_release) 4096) 24
  = Z.log2 4096.
Proof.
  destruct (alignment_class_field (P := zircon_release) 4096)
    as (_ & _ & Hback & _).
  - vm_compute. split; discriminate.
  - apply (Hback 12); [lia | reflexivity].
Defined.

Lemma hint_retry_is_anywhere_request_witness :
  exists vmo,
    zx_vmar_map 1 201326595 0 6 0 8192
    = zx_vmar_map 1
        (Z.lor (GetProtectionFromMemoryPermission (P := zircon_release)
                  kReadWrite)
               (GetAlignmentOptionFromAlignment (P := zircon_release) 4096))
        0 vmo 0 8192.
Proof.
  destruct (hint_retry_is_anywhere_request (P := zircon_release) scripted
              hint_refused demo_globals 1 2097152 4096 3145728 8192 4096
              kReadWrite kReadWrite zircon_release_option_layout)
    as (Hretry & _).
  apply (Hretry (fst (fst demo_hinted)) (snd (fst demo_hinted))
           (snd demo_hinted)
           (zx_vmar_map 1 201326611 1048576 6 0 8192) refused
           (zx_vmar_map 1 201326595 0 6 0 8192) (mkReply 0 5242880 0)).
  - vm_compute. reflexivity.
  - vm_compute. reflexivity.
Defined.


Lemma maps_only_the_upgraded_object_witness :
  1 = 1 /\ 0 = 0 /\ 8192 = 8192 /\
  exists r0 r1 r2 rest,
    snd demo_hinted
    = vmo_prologue (P := zircon_release) demo_globals 8192 r0 r1 r2 ++ rest /\
    r_status r0 = 0 /\ r_status r2 = 0 /\ 6 = r_val r2.
Proof.
  apply (maps_only_the_upgraded_object (P := zircon_release) scripted
           hint_refused demo_globals 1 2097152 4096 3145728 kUseHint 8192
           4096 kReadWrite (fst (fst demo_hinted)) (snd (fst demo_hinted))
           (snd demo_hinted) 1 201326595 0 6 0 8192 (mkReply 0 5242880 0)).
  - vm_compute. reflexivity.
  - vm_compute. do 4 right. left. reflexivity.
Defined.

Lemma placement_offset_witness :
  exists options offset vmo,
    zx_vmar_map 1 201326611 1048576 6 0 8192
    = zx_vmar_map 1 options offset vmo 0 8192 /\
    0 <= offset < 2 ^ 64 /\
    wrap64 (2097152 + offset) = 3145728 /\
    (2097152 <= 3145728 -> 0 <= 2097152 -> offset = 3145728 - 2097152).
Proof.
  destruct (placement_offset (P := zircon_release) scripted hint_refused
              demo_globals 1 2097152 4096 3145728 kUseHint 8192 4096
              kReadWrite kReadWrite
              (zx_vmar_map 1 201326611 1048576 6 0 8192) refused
              [(zx_vmar_map 1 201326595 0 6 0 8192, mkReply 0 5242880 0)])
    as (Hmap & _).
  - vm_compute. split; [discriminate | reflexivity].
  - apply (Hmap (fst (fst demo_hinted)) (snd (fst demo_hinted))
             (snd demo_hinted)).
    + vm_compute. reflexivity.
    + vm_compute. reflexivity.
Defined.

Lemma aborts_before_first_call_witness :
  snd (run scripted (OS_Free (P := zircon_debug) 4194305 4096) hint_refused)
  = [] /\
  snd (fst (run scripted (OS_Free (P := zircon_debug) 4194305 4096)
              hint_refused))
  = hint_refused.
Proof.
  destruct (aborts_before_first_call (P := zircon_debug) scripted
              hint_refused demo_globals demo_reservation demo_reservation
              4194305 4096 4096 kRead kRead) as (Hfree & _).
  apply (Hfree "address % page_size"%string).
  vm_compute. reflexivity.
Defined.

Lemma not_supported_512 : ~ supported_alignment 512.
Proof.
  intros (k & Hk & E).
  assert (2 ^ 10 <= 2 ^ k) by (apply Z.pow_le_mono_r; lia).
  change (2 ^ 10) with 1024 in *. lia.
Qed.

Lemma unsupported_alignment_is_never_placed_witness :
  placements
    (snd (run scripted
            (AllocateInternal (P := zircon_release) demo_globals 1 2097152
               4096 3145728 kUseHint 8192 512 kReadWrite) hint_refused))
  = [].
Proof.
  destruct (unsupported_alignment_is_never_placed (P := zircon_release)
              scripted hint_refused demo_globals 1 2097152 4096 3145728
              kUseHint 8192 512 kReadWrite kReadWrite not_supported_512)
    as (Halloc & _).
  eapply Halloc. vm_compute. reflexivity.
Defined.

Lemma release_build_returns_witness :
  returns scripted hint_refused
    (AddressSpaceReservation_Allocate (P := zircon_release) demo_globals
       demo_reservation 4202496 4096 kReadWrite).
Proof.
  destruct (release_build_returns (P := zircon_release) scripted hint_refused
              demo_globals demo_reservation 1 2097152 4096 4202496 kUseHint
              4096 4096 kReadWrite kReadWrite)
    as (_ & Hmethods & _).
  - reflexivity.
  - vm_compute. split; discriminate.
  - apply Hmethods. exists 12. split; [lia | reflexivity].
Defined.

Lemma obliging_parent_honours_specific (vmar vmar_base : Z) :
  honours_specific_allocate (P := zircon_release)
    (obliging_parent vmar_base) vmar vmar_base.
Proof. intros s options offset size r _ _. reflexivity. Qed.

Lemma CreateSubReservation_fixed_witness :
  base_ (mkReservation 4202496 8192 8) = 4202496 /\
  size_ (mkReservation 4202496 8192 8) = 8192 /\
  Contains demo_reservation 4202496 8192 = true.
Proof.
  destruct (CreateSubReservation_fixed (P := zircon_release)
              (obliging_parent 4194304) tt demo_reservation 4202496 8192
              kReadWrite (fst (fst demo_sub)) (snd (fst demo_sub))
              (snd demo_sub)) as (_ & Hsome & _).
  - reflexivity.
  - vm_compute. discriminate.
  - reflexivity.
  - right. apply obliging_parent_honours_specific.
  - vm_compute. reflexivity.
  - destruct (Hsome (mkReservation 4202496 8192 8)) as (Hb & Hs & Hc & _).
    + vm_compute. reflexivity.
    + repeat split; assumption.
Defined.

Lemma obliging_honours_specific_debug (vmar vmar_base : Z) :
  honours_specific (P := zircon_debug) (obliging vmar_base) vmar vmar_base.
Proof. intros s options vmar_offset vmo vmo_offset len r _ _. reflexivity. Qed.

Lemma Allocate_aborts_before_placement_witness :
  placements
    (snd (run (obliging 4194304)
            (AddressSpaceReservation_Allocate (P := zircon_debug)
               demo_globals demo_reservation 4202496 100 kReadWrite) tt))
  = [].
Proof.
  apply (Allocate_aborts_before_placement (P := zircon_debug)
           (obliging 4194304) tt demo_globals demo_reservation 4202496 100
           kReadWrite "size % page_size"%string tt).
  - reflexivity.
  - vm_compute. discriminate.
  - reflexivity.
  - apply obliging_honours_specific_debug.
  - vm_compute. reflexivity.
Defined.

Lemma GetUserTime_rounds_up_witness :
  0 <= 1 < 1000000 /\ 0 <= 2 < 2 ^ 32 /\
  2000000001 <= (2 * 1000000 + 1) * 1000 < 2000000001 + 1000 /\
  (2000000001 mod 1000 = 0 -> (2 * 1000000 + 1) * 1000 = 2000000001).
Proof.
  apply (GetUserTime_rounds_up (P := zircon_release) scripted
           [mkReply 0 2000000001 0] 7 7 (mkUserTime 0 2 1) []
           [(zx_object_get_info 2 15, mkReply 0 2000000001 0)]
           (mkReply 0 2000000001 0)).
  - vm_compute. reflexivity.
  - reflexivity.
  - reflexivity.
  - vm_compute. split; discriminate.
Defined.


